(** * SOC Risk Engine: the scoring core and the Cortex verdict extraction

    A shallow embedding of [risk_engine/calculator.py] and of the verdict
    helpers of [risk_engine/clients/cortex.py] ([extract_verdicts] and
    [_parse_score]), with the properties the specification states of them.

    Numbers.  Python floats are modelled by exact rationals ([Q]): the
    arithmetic of the scoring path (sums, one division, products,
    comparisons, decimal rounding) is read over the rationals, so
    infinities, NaN and binary rounding error are outside the model.
    Numeric results are compared with [==] ([Qeq]).

    Strings.  Strings are ASCII; [lower()] changes the letters A-Z.

    Exceptions.  Every operation of the source that can raise (a dict
    subscript, a division, a list index, [float()], a method of a value of
    the wrong type) returns a [result]; the only handler of the source, the
    [except] clause of [_parse_score], is written out.

    JSON.  A Cortex job is JSON of any shape; what the client does with a
    value of an unexpected type (stores it, formats it, fails on it) is
    modelled as the code does it.

    State.  [score_observable] and [score_case] update their argument in
    place; here they return the updated value next to their result.  The
    log records they emit enter no result and are left out.

    Configuration.  [risk_engine/config.py] is not part of the sources at
    hand; the tables it provides are the fields of the record [Config],
    named as the code names them, and every function that reads the
    module takes the record as an argument. *)

From Stdlib Require Import Ascii String QArith Qround.
From stdpp Require Import base option list gmap strings sorting pretty.

Local Open Scope Q_scope.

(** ** Exceptions *)

Inductive exn : Type :=
| KeyError (key : string)
| ValueError
| ZeroDivisionError
| IndexError
| AttributeError
| TypeError.

Inductive result (A : Type) : Type :=
| Ok (a : A)
| Raise (e : exn).
Arguments Ok {A} a.
Arguments Raise {A} e.

#[global] Instance result_ret : MRet result := fun A a => Ok a.
#[global] Instance result_bind : MBind result := fun A B f m =>
  match m with
  | Ok a => f a
  | Raise e => Raise e
  end.

Definition returns {A} (m : result A) : Prop := exists a, m = Ok a.

(** ** Python numbers over the rationals *)

Module Py.

Definition ltb (a b : Q) : bool := negb (Qle_bool b a).
Definition geb (a b : Q) : bool := Qle_bool b a.

(** [min(a, b)]: the first argument unless the second is smaller. *)
Definition min (a b : Q) : Q := if ltb b a then b else a.

(** [max(xs)] of a non-empty list: the first maximal element. *)
Definition max (x : Q) (xs : list Q) : Q :=
  fold_left (fun m y => if ltb m y then y else m) xs x.

(** [sum(xs)], from 0, left to right. *)
Definition sum (xs : list Q) : Q := fold_left Qplus xs 0.

(** [a / b] *)
Definition div (a b : Q) : result Q :=
  if Qeq_bool b 0 then Raise ZeroDivisionError else Ok (a / b).

(** Rounding to the nearest integer, ties to the even one. *)
Definition round_half_even (x : Q) : Z :=
  let f := Qfloor x in
  match Qcompare (x - inject_Z f) (1 # 2) with
  | Lt => f
  | Gt => (f + 1)%Z
  | Eq => if Z.even f then f else (f + 1)%Z
  end.

(** [round(x, ndigits)] *)
Definition round (x : Q) (ndigits : nat) : Q :=
  let p := inject_Z (10 ^ Z.of_nat ndigits) in
  inject_Z (round_half_even (x * p)) / p.

(** [s.lower()], on the ASCII letters. *)
Definition lower_ascii (c : ascii) : ascii :=
  let n := nat_of_ascii c in
  if ((65 <=? n) && (n <=? 90))%nat then ascii_of_nat (n + 32) else c.

Fixpoint lower (s : string) : string :=
  match s with
  | EmptyString => EmptyString
  | String c s' => String (lower_ascii c) (lower s')
  end.

(** [d[k]] and [d.get(k, dflt)] on a dict with string keys. *)
Definition getitem {V} (d : gmap string V) (k : string) : result V :=
  match d !! k with
  | Some v => Ok v
  | None => Raise (KeyError k)
  end.

Definition get {V} (d : gmap string V) (k : string) (dflt : V) : V :=
  default dflt (d !! k).

End Py.

(** ** The data model *)

(** Modelled from the spec: [risk_engine/models.py] is not among the
    sources at hand.  The five records below have the fields the data
    model of the specification lists, under the names by which
    [calculator.py], [clients/cortex.py] and [reporter.py] read and write
    them, with the types of their annotations ([str], [float], [List]);
    the likelihood of a RiskScore is [rs_likelihood], that of an
    ObservableRisk is [likelihood]. *)
Record AnalyzerResult : Type := {
  analyzer_name : string;
  level : string;
  score : Q;
  namespace : string;
  predicate : string;
  raw_value : string }.

Record Observable : Type := {
  value : string;
  data_type : string }.

Record ObservableRisk : Type := {
  observable : Observable;
  analyzer_results : list AnalyzerResult;
  likelihood : Q }.

Record RiskScore : Type := {
  rs_likelihood : Q;
  impact_dollars : Q;
  ale : Q;
  risk_level : string }.

Record CaseRiskAssessment : Type := {
  case_id : string;
  case_title : string;
  timestamp : string;
  asset_type : string;
  sensitivity : string;
  observables : list ObservableRisk;
  risk_score : option RiskScore }.

(** ** The configuration tables *)

(** The module [risk_engine.config], taken as a parameter of every
    function that reads it: the tables and constants [calculator.py]
    refers to.  The three tables indexed by a name are dicts; the
    threshold is a count, the other constants are numbers. *)
Record Config : Type := {
  VERDICT_WEIGHTS : gmap string Q;
  MALICIOUS_CONSENSUS_THRESHOLD : Z;
  MALICIOUS_CONSENSUS_BOOST : Q;
  ASSET_VALUES : gmap string Q;
  DEFAULT_ASSET_VALUE : Q;
  SENSITIVITY_MULTIPLIERS : gmap string Q;
  DEFAULT_SENSITIVITY : string;
  RISK_THRESHOLDS : gmap string Q }.

(** ** calculator.py *)

Section Calculator.

Variable config : Config.

(** The set comprehension
    [{r.analyzer_name for r in results if r.level == "malicious"}]. *)
Definition malicious_analyzers (results : list AnalyzerResult) : gset string :=
  list_to_set (analyzer_name <$> filter (fun r => level r = "malicious"%string) results).

(** [config.VERDICT_WEIGHTS.get(r.level, 0.0)] *)
Definition verdict_weight (r : AnalyzerResult) : Q :=
  Py.get (VERDICT_WEIGHTS config) (level r) 0.

Definition compute_likelihood (results : list AnalyzerResult) : result Q :=
  match results with
  | [] => Ok 0
  | _ =>
    let weights := verdict_weight <$> results in
    avg ← Py.div (Py.sum weights) (inject_Z (Z.of_nat (length weights)));
    let malicious_count :=
      length (filter (fun r => level r = "malicious"%string) results) in
    let unique_analyzers := size (malicious_analyzers results) in
    let avg :=
      if (MALICIOUS_CONSENSUS_THRESHOLD config <=? Z.of_nat unique_analyzers)%Z
      then avg * MALICIOUS_CONSENSUS_BOOST config
      else avg in
    Ok (Py.min avg 1)
  end.

(** The second argument of [.get] is evaluated before the call, so the
    subscript of the default tier comes first. *)
Definition compute_impact (asset_type sensitivity : string) : result Q :=
  let base :=
    Py.get (ASSET_VALUES config) (Py.lower asset_type) (DEFAULT_ASSET_VALUE config) in
  dflt ← Py.getitem (SENSITIVITY_MULTIPLIERS config) (DEFAULT_SENSITIVITY config);
  let multiplier :=
    Py.get (SENSITIVITY_MULTIPLIERS config) (Py.lower sensitivity) dflt in
  Ok (base * multiplier).

Definition classify_risk (ale : Q) : result string :=
  critical ← Py.getitem (RISK_THRESHOLDS config) "critical";
  if Py.geb ale critical then Ok "Critical"%string else
  high ← Py.getitem (RISK_THRESHOLDS config) "high";
  if Py.geb ale high then Ok "High"%string else
  medium ← Py.getitem (RISK_THRESHOLDS config) "medium";
  if Py.geb ale medium then Ok "Medium"%string else
  low ← Py.getitem (RISK_THRESHOLDS config) "low";
  if Py.geb ale low then Ok "Low"%string else
  Ok "Info"%string.

(** [score_observable] writes the likelihood into the observable and
    returns it: the updated observable and the returned value. *)
Definition score_observable (observable_risk : ObservableRisk)
  : result (ObservableRisk * Q) :=
  likelihood ← compute_likelihood (analyzer_results observable_risk);
  Ok ({| observable := observable observable_risk;
         analyzer_results := analyzer_results observable_risk;
         likelihood := likelihood |}, likelihood).

(** The loop of [score_case]: the observables already visited (updated)
    and the likelihoods collected so far, both in stored order. *)
Fixpoint score_observables (obs : list ObservableRisk)
  : result (list ObservableRisk * list Q) :=
  match obs with
  | [] => Ok ([], [])
  | obs_risk :: rest =>
    '(obs_risk', lh) ← score_observable obs_risk;
    '(rest', likelihoods) ← score_observables rest;
    Ok (obs_risk' :: rest', lh :: likelihoods)
  end.

(** [max(likelihoods) if likelihoods else 0.0] *)
Definition case_likelihood_of (likelihoods : list Q) : Q :=
  match likelihoods with
  | [] => 0
  | lh :: rest => Py.max lh rest
  end.

(** [score_case] returns the score and leaves the assessment with its
    observables scored and the score attached. *)
Definition score_case (assessment : CaseRiskAssessment)
  : result (CaseRiskAssessment * RiskScore) :=
  '(observables', likelihoods) ← score_observables (observables assessment);
  let case_likelihood := case_likelihood_of likelihoods in
  impact ← compute_impact (asset_type assessment) (sensitivity assessment);
  let ale := case_likelihood * impact in
  level ← classify_risk ale;
  let risk :=
    {| rs_likelihood := Py.round case_likelihood 4;
       impact_dollars := impact;
       ale := Py.round ale 2;
       risk_level := level |} in
  Ok ({| case_id := case_id assessment;
         case_title := case_title assessment;
         timestamp := timestamp assessment;
         asset_type := asset_type assessment;
         sensitivity := sensitivity assessment;
         observables := observables';
         risk_score := Some risk |}, risk).

End Calculator.


(** ** JSON values, as [requests] hands them to the Cortex client *)

#[local] Set Warnings "-register-all".
Inductive json : Type :=
| JNull
| JBool (b : bool)
| JNum (q : Q)
| JStr (s : string)
| JArr (items : list json)
| JObj (fields : gmap string json).

Module PyJson.

(** Truth value of a JSON value, as [not v] and [v or w] take it. *)
Definition truthy (v : json) : bool :=
  match v with
  | JNull => false
  | JBool b => b
  | JNum q => negb (Qeq_bool q 0)
  | JStr s => negb (String.eqb s "")
  | JArr items => negb (bool_decide (items = []))
  | JObj fields => negb (bool_decide (size fields = 0%nat))
  end.

(** [a or b] *)
Definition or (a b : json) : json := if truthy a then a else b.

(** The receiver of [v.get(...)]: a dict, or [AttributeError]. *)
Definition as_dict (v : json) : result (gmap string json) :=
  match v with
  | JObj fields => Ok fields
  | _ => Raise AttributeError
  end.

(** [v.lower()]: a string, or [AttributeError]. *)
Definition lower (v : json) : result string :=
  match v with
  | JStr s => Ok (Py.lower s)
  | _ => Raise AttributeError
  end.

(** [for x in v]: the items of a list, the characters of a string, the
    keys of a dict; [TypeError] for the values that are not iterable. *)
Definition iterate (v : json) : result (list json) :=
  match v with
  | JArr items => Ok items
  | JStr s => Ok ((fun c => JStr (String c "")) <$> list_ascii_of_string s)
  | JObj fields => Ok ((fun kv => JStr kv.1) <$> map_to_list fields)
  | _ => Raise TypeError
  end.

End PyJson.

(** An AnalyzerResult as [extract_verdicts] builds it.  The constructor
    checks no type: [analyzer_name], [namespace] and [predicate] hold the
    JSON value the job holds there, a string in a job of the documented
    shape and anything else otherwise; [level] is a string, [score] a
    number and [raw_value] a string by construction. *)
Module Dynamic.

Record AnalyzerResult : Type := {
  analyzer_name : json;
  level : string;
  score : Q;
  namespace : json;
  predicate : json;
  raw_value : string }.

End Dynamic.

(** ** Strings: [in], [split], indexing *)

Module PyStr.

(** [c in s] for a one-character [c] *)
Fixpoint contains (c : ascii) (s : string) : bool :=
  match s with
  | EmptyString => false
  | String a s' => Ascii.eqb a c || contains c s'
  end.

(** [s.split(c)] for a one-character separator: one more part than there
    are separators. *)
Fixpoint split (c : ascii) (s : string) : list string :=
  match s with
  | EmptyString => [EmptyString]
  | String a s' =>
    if Ascii.eqb a c then EmptyString :: split c s'
    else match split c s' with
         | part :: parts => String a part :: parts
         | [] => [String a EmptyString]
         end
  end.

(** [parts[i]] *)
Definition index (parts : list string) (i : nat) : result string :=
  match parts !! i with
  | Some part => Ok part
  | None => Raise IndexError
  end.

End PyStr.

(** ** clients/cortex.py *)

Section Cortex.

(** The builtin [float] on strings: [py_float s] is [float(s)], [None]
    where it raises [ValueError]. *)
Variable py_float : string -> option Q.

(** The builtin [str] on the values that are not strings: [py_str v] is
    [str(v)] of a number, a boolean, [None], a list or a dict.  A JSON
    number is modelled by its value, so [py_str] gives one spelling to an
    [int] and a [float] of the same value. *)
Variable py_str : json -> string.

Definition float (s : string) : result Q :=
  match py_float s with
  | Some q => Ok q
  | None => Raise ValueError
  end.

(** The body of the [try] block of [_parse_score]; [value] is a string, as
    the signature says, so [str(value)] is [value]. *)
Definition parse_score_body (value : string) : result Q :=
  if PyStr.contains "/" value then
    let parts := PyStr.split "/" value in
    p0 ← PyStr.index parts 0;
    a ← float p0;
    p1 ← PyStr.index parts 1;
    b ← float p1;
    Py.div a b
  else float value.

(** [except (ValueError, ZeroDivisionError): return 0.0] *)
Definition _parse_score (value : string) : result Q :=
  match parse_score_body value with
  | Raise ValueError => Ok 0
  | Raise ZeroDivisionError => Ok 0
  | r => r
  end.

(** [str(v)] *)
Definition str (v : json) : string :=
  match v with
  | JStr s => s
  | _ => py_str v
  end.

(** [float(v)]: a string is parsed, a number is itself, a boolean is 1 or
    0, anything else is a [TypeError].  (Over the rationals every number
    is a float: the [OverflowError] of an integer beyond the float range is
    outside the model, as the infinities are.) *)
Definition float_of (v : json) : result Q :=
  match v with
  | JStr s => float s
  | JNum q => Ok q
  | JBool b => Ok (if b then 1 else 0)
  | _ => Raise TypeError
  end.

(** [_parse_score] on whatever value the caller passes: the same body
    with [str(value)] and [float(value)] written out.  The handler lets a
    [TypeError] through. *)
Definition parse_score_value_body (value : json) : result Q :=
  if PyStr.contains "/" (str value) then
    let parts := PyStr.split "/" (str value) in
    p0 ← PyStr.index parts 0;
    a ← float p0;
    p1 ← PyStr.index parts 1;
    b ← float p1;
    Py.div a b
  else float_of value.

Definition _parse_score_value (value : json) : result Q :=
  match parse_score_value_body value with
  | Raise ValueError => Ok 0
  | Raise ZeroDivisionError => Ok 0
  | r => r
  end.

Definition canonical_levels : list string :=
  ["malicious"; "suspicious"; "safe"; "info"]%string.

(** Lines 110-113: the level of one taxonomy entry. *)
Definition normalise_level (tax : gmap string json) : result string :=
  level ← PyJson.lower (Py.get tax "level" (JStr "info"));
  if negb (bool_decide (level ∈ canonical_levels)) then Ok "info"%string
  else Ok level.

(** One turn of the loop of [extract_verdicts]: lines 110-124. *)
Definition extract_verdict (analyzer_name : json) (tax : json)
  : result Dynamic.AnalyzerResult :=
  tax ← PyJson.as_dict tax;
  level ← normalise_level tax;
  score ← _parse_score_value (Py.get tax "value" (JStr "0"));
  Ok {| Dynamic.analyzer_name := analyzer_name;
        Dynamic.level := level;
        Dynamic.score := score;
        Dynamic.namespace := Py.get tax "namespace" (JStr "");
        Dynamic.predicate := Py.get tax "predicate" (JStr "");
        Dynamic.raw_value := str (Py.get tax "value" (JStr "")) |}.

Fixpoint extract_loop (analyzer_name : json) (taxonomies : list json)
  : result (list Dynamic.AnalyzerResult) :=
  match taxonomies with
  | [] => Ok []
  | tax :: rest =>
    r ← extract_verdict analyzer_name tax;
    rs ← extract_loop analyzer_name rest;
    Ok (r :: rs)
  end.

Definition extract_verdicts (job : gmap string json)
  : result (list Dynamic.AnalyzerResult) :=
  let analyzer_name := Py.get job "analyzerName" (JStr "unknown") in
  let report := PyJson.or (Py.get job "report" (JObj ∅)) (JObj ∅) in
  report ← PyJson.as_dict report;
  let summary := PyJson.or (Py.get report "summary" (JObj ∅)) (JObj ∅) in
  summary ← PyJson.as_dict summary;
  let taxonomies := Py.get summary "taxonomies" (JArr []) in
  if negb (PyJson.truthy taxonomies) then Ok []
  else
    taxonomies ← PyJson.iterate taxonomies;
    extract_loop analyzer_name taxonomies.

End Cortex.

(** ** Vocabulary of the specification *)

(** Severity order of the labels: Info < Low < Medium < High < Critical. *)
Definition severity_rank (label : string) : nat :=
  if String.eqb label "Critical" then 4
  else if String.eqb label "High" then 3
  else if String.eqb label "Medium" then 2
  else if String.eqb label "Low" then 1
  else 0.

(** The arithmetic mean of the verdict weights of a list of results. *)
Definition weighted_mean (cfg : Config) (results : list AnalyzerResult) : Q :=
  foldr (fun r acc => verdict_weight cfg r + acc) 0 results
  / inject_Z (Z.of_nat (length results)).

(** The number of distinct analyzer identities that reported "malicious":
    the names of the malicious entries, each counted once. *)
Definition distinct_malicious (results : list AnalyzerResult) : nat :=
  length (remove_dups
    (analyzer_name <$> filter (fun r => level r = "malicious"%string) results)).

(** The number of taxonomy entries that reported "malicious". *)
Definition malicious_entries (results : list AnalyzerResult) : nat :=
  length (filter (fun r => level r = "malicious"%string) results).

(** The value the specification clamps: never above 1. *)
Definition clamp_to_one (x : Q) : Q := if Qle_bool x 1 then x else 1.

(** Two characters that differ at most in the case of an ASCII letter. *)
Definition same_letter (a b : ascii) : Prop :=
  let m := nat_of_ascii a in
  let n := nat_of_ascii b in
  m = n \/ (65 <= m <= 90 /\ n = m + 32)%nat \/ (65 <= n <= 90 /\ m = n + 32)%nat.

(** Two strings equal up to the case of their ASCII letters. *)
Fixpoint same_ignoring_case (s t : string) : Prop :=
  match s, t with
  | EmptyString, EmptyString => True
  | String a s', String b t' => same_letter a b /\ same_ignoring_case s' t'
  | _, _ => False
  end.

(** The tables the scoring path subscripts are there: a multiplier for the
    default tier and the four cutoffs. *)
Definition config_complete (cfg : Config) : Prop :=
  is_Some (SENSITIVITY_MULTIPLIERS cfg !! DEFAULT_SENSITIVITY cfg) /\
  is_Some (RISK_THRESHOLDS cfg !! "critical"%string) /\
  is_Some (RISK_THRESHOLDS cfg !! "high"%string) /\
  is_Some (RISK_THRESHOLDS cfg !! "medium"%string) /\
  is_Some (RISK_THRESHOLDS cfg !! "low"%string).

(** A taxonomy entry of the shape Cortex documents: an object whose
    [level], [value], [namespace] and [predicate], where present, are
    strings. *)
Definition str_or_absent (fields : gmap string json) (k : string) : Prop :=
  fields !! k = None \/ exists s, fields !! k = Some (JStr s).

Definition taxonomy_shaped (tax : json) : Prop :=
  exists fields, tax = JObj fields /\
    str_or_absent fields "level" /\ str_or_absent fields "value" /\
    str_or_absent fields "namespace" /\ str_or_absent fields "predicate".

(** A value [_parse_score] takes without a [TypeError]: a string, a
    number or a boolean. *)
Definition value_accepted (v : json) : Prop :=
  match v with
  | JStr _ | JNum _ | JBool _ => True
  | _ => False
  end.

(** A taxonomy entry [extract_verdicts] turns into a result: an object
    whose level, where present, is a string, and whose value, where
    present, is a string, a number or a boolean. *)
Definition taxonomy_accepted (tax : json) : Prop :=
  exists fields, tax = JObj fields /\
    str_or_absent fields "level" /\
    value_accepted (Py.get fields "value" (JStr "0")).

(** What the calculator reads of a built result: its level, and its
    analyzer name when that is a string. *)
Definition reads_as (built : Dynamic.AnalyzerResult) (r : AnalyzerResult) : Prop :=
  level r = Dynamic.level built /\
  JStr (analyzer_name r) = Dynamic.analyzer_name built.

(** The level the specification assigns to a taxonomy entry: the
    lower-cased level when it is one of the four, "info" otherwise, also
    when the field is missing. *)
Definition level_of_taxonomy (tax : json) : string :=
  match tax with
  | JObj fields =>
    match fields !! "level"%string with
    | Some (JStr s) =>
      if bool_decide (Py.lower s ∈ canonical_levels) then Py.lower s
      else "info"%string
    | _ => "info"%string
    end
  | _ => "info"%string
  end.

(** An observable after scoring: the same observable and verdicts, with
    the likelihood [compute_likelihood] returns for its verdicts. *)
Definition scored_by (cfg : Config) (o o' : ObservableRisk) : Prop :=
  observable o' = observable o /\
  analyzer_results o' = analyzer_results o /\
  compute_likelihood cfg (analyzer_results o) = Ok (likelihood o').

(** [m] is the maximum of the list [l]: one of its elements, and none of
    them is greater. *)
Definition is_maximum (m : Q) (l : list Q) : Prop :=
  m ∈ l /\ Forall (fun x => x <= m) l.

(** ** Concrete configurations and inputs *)

(** Modelled from the spec: the configuration of its scenarios A and B,
    that is the four verdict weights, the threshold 2, the boost 1.2, the
    base value of a database, the multiplier of the tier "high" and the
    four cutoffs.  The scenarios do not fix the default asset value nor
    the default tier; 10000 dollars and "medium" with multiplier 1 are
    chosen here. *)
Definition scenario_config : Config := {|
  VERDICT_WEIGHTS :=
    {[ "malicious"%string := 1; "suspicious"%string := 1 # 2;
       "safe"%string := 0; "info"%string := 0 ]};
  MALICIOUS_CONSENSUS_THRESHOLD := 2;
  MALICIOUS_CONSENSUS_BOOST := 12 # 10;
  ASSET_VALUES := {[ "database"%string := 100000 ]};
  DEFAULT_ASSET_VALUE := 10000;
  SENSITIVITY_MULTIPLIERS := {[ "high"%string := 2; "medium"%string := 1 ]};
  DEFAULT_SENSITIVITY := "medium";
  RISK_THRESHOLDS :=
    {[ "critical"%string := 500000; "high"%string := 100000;
       "medium"%string := 10000; "low"%string := 1000 ]} |}.

Definition verdict (name lvl : string) : AnalyzerResult :=
  {| analyzer_name := name; level := lvl; score := 0;
     namespace := ""; predicate := ""; raw_value := "" |}.

Definition unscored (val : string) (results : list AnalyzerResult) : ObservableRisk :=
  {| observable := {| value := val; data_type := "ip" |};
     analyzer_results := results;
     likelihood := 0 |}.

Definition case_of (asset tier : string) (obs : list ObservableRisk)
  : CaseRiskAssessment :=
  {| case_id := "~1"; case_title := "case"; timestamp := "";
     asset_type := asset; sensitivity := tier;
     observables := obs; risk_score := None |}.

(** [k] malicious and [n - k] safe entries, all of one analyzer. *)
Definition one_analyzer (k n : nat) : list AnalyzerResult :=
  replicate k (verdict "VirusTotal" "malicious")
  ++ replicate (n - k) (verdict "VirusTotal" "safe").

(** Three observables with likelihoods 0.1, 0.9 and 0.3. *)
Definition three_observables : list ObservableRisk :=
  [ unscored "198.51.100.7" (one_analyzer 1 10);
    unscored "203.0.113.9" (one_analyzer 9 10);
    unscored "192.0.2.1" (one_analyzer 3 10) ].



(** Verdict weights above 1: a malicious verdict weighs 2. *)
Definition heavy_config : Config := {|
  VERDICT_WEIGHTS := {[ "malicious"%string := 2 ]};
  MALICIOUS_CONSENSUS_THRESHOLD := 2;
  MALICIOUS_CONSENSUS_BOOST := 12 # 10;
  ASSET_VALUES := ASSET_VALUES scenario_config;
  DEFAULT_ASSET_VALUE := 10000;
  SENSITIVITY_MULTIPLIERS := SENSITIVITY_MULTIPLIERS scenario_config;
  DEFAULT_SENSITIVITY := "medium";
  RISK_THRESHOLDS := RISK_THRESHOLDS scenario_config |}.

(** A low cutoff of 0 dollars: every case is at least "Low". *)
Definition floor_config : Config := {|
  VERDICT_WEIGHTS := VERDICT_WEIGHTS scenario_config;
  MALICIOUS_CONSENSUS_THRESHOLD := 2;
  MALICIOUS_CONSENSUS_BOOST := 12 # 10;
  ASSET_VALUES := ASSET_VALUES scenario_config;
  DEFAULT_ASSET_VALUE := 10000;
  SENSITIVITY_MULTIPLIERS := SENSITIVITY_MULTIPLIERS scenario_config;
  DEFAULT_SENSITIVITY := "medium";
  RISK_THRESHOLDS :=
    {[ "critical"%string := 500000; "high"%string := 100000;
       "medium"%string := 10000; "low"%string := 0 ]} |}.

(** Decimal literals, a fragment of what [float] reads: an optional sign,
    digits, and an optional fractional part; no exponent, no blanks. *)
Definition digit_of (c : ascii) : option Z :=
  let n := nat_of_ascii c in
  if ((48 <=? n) && (n <=? 57))%nat then Some (Z.of_nat (n - 48)) else None.

Fixpoint read_digits (s : string) (acc : Z) (count : nat) : Z * nat * string :=
  match s with
  | String c s' =>
    match digit_of c with
    | Some d => read_digits s' (10 * acc + d)%Z (S count)
    | None => (acc, count, s)
    end
  | EmptyString => (acc, count, s)
  end.

Definition unsigned_decimal (s : string) : option Q :=
  let '(i, ni, rest) := read_digits s 0%Z 0%nat in
  match rest with
  | EmptyString => if (ni =? 0)%nat then None else Some (inject_Z i)
  | String "."%char rest' =>
    let '(f, nf, rest'') := read_digits rest' 0%Z 0%nat in
    match rest'' with
    | EmptyString =>
      if (ni + nf =? 0)%nat then None
      else Some (inject_Z i + inject_Z f / inject_Z (10 ^ Z.of_nat nf))
    | _ => None
    end
  | _ => None
  end.

Definition decimal_float (s : string) : option Q :=
  match s with
  | String "-"%char s' => Qopp <$> unsigned_decimal s'
  | String "+"%char s' => unsigned_decimal s'
  | _ => unsigned_decimal s
  end.

(** A Cortex job with three taxonomy entries: a level in capitals, a level
    outside the four, and no level at all. *)
Definition sample_job : gmap string json :=
  {[ "analyzerName"%string := JStr "VirusTotal_GetReport_3_1";
     "report"%string := JObj {[ "summary"%string := JObj {[ "taxonomies"%string :=
       JArr [ JObj {[ "level"%string := JStr "MALICIOUS"; "value"%string := JStr "5/100" ]};
              JObj {[ "level"%string := JStr "dangerous"; "value"%string := JStr "n/a" ]};
              JObj {[ "namespace"%string := JStr "VT" ]} ] ]} ]} ]}.

(** [str] of the values met in the examples: [None], the booleans and
    the whole numbers, which print as an [int] does.  Other values are
    outside this fragment. *)
Definition plain_str (v : json) : string :=
  match v with
  | JStr s => s
  | JNull => "None"
  | JBool true => "True"
  | JBool false => "False"
  | JNum q => pretty (Qnum q)
  | _ => ""
  end%string.

(** A job whose entries hold numbers: a numeric value, and a numeric
    namespace with a level outside the four. *)
Definition numeric_job : gmap string json :=
  {[ "analyzerName"%string := JStr "MaxMind_GeoIP_4_0";
     "report"%string := JObj {[ "summary"%string := JObj {[ "taxonomies"%string :=
       JArr [ JObj {[ "level"%string := JStr "Suspicious"; "value"%string := JNum 42 ]};
              JObj {[ "level"%string := JStr "unknown"; "namespace"%string := JNum 7 ]} ] ]} ]} ]}.


(** ** clients/cortex.py: collecting the verdicts of an observable *)

Section CortexClient.

Variable py_float : string -> option Q.
Variable py_str : json -> string.

(** The two requests behind [get_analyzer_results], as the answers Cortex
    gives: [request_job_report id] is what
    [self._request("GET", f"/api/job/{id}/report")] returns, the parsed
    body or [None] ([JNull]) for an empty one; [get_observable_jobs] is the
    method of that name, returning the jobs found.  A failed request
    raises. *)
Variable request_job_report : json -> result json.
Variable get_observable_jobs : string -> string -> result (list (gmap string json)).

(** [self._request(...) or {}] *)
Definition get_job_report (job_id : json) : result json :=
  answer ← request_job_report job_id;
  Ok (PyJson.or answer (JObj ∅)).

(** Lines 136-138: a job without a report, or with an empty one, gets the
    report fetched; the updated job. *)
Definition ensure_report (job : gmap string json) : result (gmap string json) :=
  if match job !! "report"%string with
     | None => true
     | Some report => negb (PyJson.truthy report)
     end
  then
    job_id ← Py.getitem job "id";
    full_report ← get_job_report job_id;
    fields ← PyJson.as_dict full_report;
    Ok (<["report"%string := Py.get fields "report" full_report]> job)
  else Ok job.

(** The loop of [get_analyzer_results]. *)
Fixpoint collect_verdicts (jobs : list (gmap string json))
  : result (list Dynamic.AnalyzerResult) :=
  match jobs with
  | [] => Ok []
  | job :: rest =>
    job ← ensure_report job;
    verdicts ← extract_verdicts py_float py_str job;
    all_results ← collect_verdicts rest;
    Ok (verdicts ++ all_results)
  end.

Definition get_analyzer_results (observable_value data_type : string)
  : result (list Dynamic.AnalyzerResult) :=
  jobs ← get_observable_jobs observable_value data_type;
  collect_verdicts jobs.

End CortexClient.

(** ** reporter.py *)

Definition newline : string := String "010"%char EmptyString.

Definition _risk_emoji (level : string) : string :=
  Py.get
    ({[ "Critical" := "[!!!]"; "High" := "[!!]"; "Medium" := "[!]";
        "Low" := "[-]"; "Info" := "[i]" ]}%string : gmap string string)
    level ""%string.

(** The loop [counts[r.level] = counts.get(r.level, 0) + 1]. *)
Definition count_levels (results : list AnalyzerResult) : gmap string nat :=
  fold_left
    (fun counts r => <[level r := (Py.get counts (level r) 0 + 1)%nat]> counts)
    results ∅.

(** The order of the pairs [(level, count)] under [sorted]: by level, then
    by count. *)
Definition item_le (x y : string * nat) : Prop :=
  String.le x.1 y.1 /\ (x.1 = y.1 -> (x.2 <= y.2)%nat).

#[global] Instance item_le_dec : RelDecision item_le.
Proof. intros x y. unfold item_le. apply _. Defined.

(** [sorted(counts.items())] *)
Definition sorted_items (counts : gmap string nat) : list (string * nat) :=
  merge_sort item_le (map_to_list counts).

Definition _verdict_summary (obs : ObservableRisk) : string :=
  match analyzer_results obs with
  | [] => "No analyzer results"%string
  | _ =>
    let counts := count_levels (analyzer_results obs) in
    let parts :=
      (fun item => pretty item.2 +:+ " " +:+ item.1)
        <$> sorted_items counts in
    String.concat ", " parts
  end.

Definition _recommendations (level : string) : list string :=
  Py.get
    ({[ "Critical" :=
          [ "Escalate to incident commander immediately";
            "Isolate affected assets from the network";
            "Begin forensic evidence preservation";
            "Notify executive leadership and legal counsel";
            "Activate incident response plan" ];
        "High" :=
          [ "Escalate to senior SOC analyst";
            "Restrict access to affected assets";
            "Run full endpoint scan on associated hosts";
            "Review related cases for lateral movement indicators" ];
        "Medium" :=
          [ "Assign to SOC analyst for investigation";
            "Run additional Cortex analyzers for enrichment";
            "Monitor associated assets for 48 hours" ];
        "Low" :=
          [ "Document findings for trend analysis";
            "Schedule routine review within 7 days" ];
        "Info" :=
          [ "No immediate action required";
            "Log for baseline and reporting purposes" ] ]}%string
      : gmap string (list string))
    level ["Review case manually"%string].

Section Reporter.

(** The number formats of the f-strings: [fmt_money2 x] is [f"{x:,.2f}"],
    [fmt_money0 x] is [f"{x:,.0f}"], [fmt_percent x] is [f"{x:.2%}"]. *)
Variables fmt_money2 fmt_money0 fmt_percent : Q -> string.

(** One row of the observable table. *)
Definition observable_row (obs : ObservableRisk) : string :=
  "| `" +:+ value (observable obs) +:+ "` "
  +:+ "| " +:+ data_type (observable obs) +:+ " "
  +:+ "| " +:+ fmt_percent (likelihood obs) +:+ " "
  +:+ "| " +:+ _verdict_summary obs +:+ " |".

Definition analyzer_row (r : AnalyzerResult) : string :=
  "| " +:+ analyzer_name r +:+ " | " +:+ level r +:+ " | " +:+ raw_value r +:+ " "
  +:+ "| " +:+ namespace r +:+ ":" +:+ predicate r +:+ " |".

(** The detail block of one observable; nothing for an observable without
    analyzer results. *)
Definition detail_lines (obs : ObservableRisk) : list string :=
  match analyzer_results obs with
  | [] => []
  | _ =>
    [ "**`" +:+ value (observable obs) +:+ "`** ("
        +:+ data_type (observable obs) +:+ ")";
      ""%string;
      "| Analyzer | Verdict | Score | Detail |"%string;
      "|----------|---------|-------|--------|"%string ]
    ++ (analyzer_row <$> analyzer_results obs)
    ++ [""%string]
  end.

Definition breakdown_lines (obs : list ObservableRisk) : list string :=
  match obs with
  | [] => []
  | _ =>
    [ "---"; "";
      "## Observable Breakdown"; "";
      "| Observable | Type | Likelihood | Verdicts |";
      "|------------|------|------------|----------|" ]%string
    ++ (observable_row <$> obs)
    ++ [""%string]
    ++ [ "### Detailed Analyzer Results"; "" ]%string
    ++ concat (detail_lines <$> obs)
  end.

(** [enumerate(recs, start)]: the numbered lines. *)
Fixpoint numbered (start : nat) (recs : list string) : list string :=
  match recs with
  | [] => []
  | rec :: rest => (pretty start +:+ ". " +:+ rec) :: numbered (S start) rest
  end.

Definition report_lines (assessment : CaseRiskAssessment) (risk : RiskScore)
  : list string :=
  let indicator := _risk_emoji (risk_level risk) in
  [ "# Risk Assessment Report"%string;
    ""%string;
    "**Case:** " +:+ case_title assessment +:+ " (`" +:+ case_id assessment +:+ "`)";
    "**Assessed:** " +:+ timestamp assessment;
    ""%string;
    "---"%string;
    ""%string;
    "## Executive Summary"%string;
    ""%string;
    indicator +:+ " This case has a **" +:+ risk_level risk +:+ "** risk level "
      +:+ "with an estimated annual loss exposure of **$"
      +:+ fmt_money2 (ale risk) +:+ "**.";
    ""%string;
    "---"%string;
    ""%string;
    "## Risk Calculation"%string;
    ""%string;
    "| Metric | Value |"%string;
    "|--------|-------|"%string;
    "| Likelihood | " +:+ fmt_percent (rs_likelihood risk) +:+ " |";
    "| Asset Type | " +:+ asset_type assessment +:+ " |";
    "| Sensitivity | " +:+ sensitivity assessment +:+ " |";
    "| Impact (SLE) | $" +:+ fmt_money0 (impact_dollars risk) +:+ " |";
    "| **ALE (Annualized Loss)** | **$" +:+ fmt_money2 (ale risk) +:+ "** |";
    "| **Risk Level** | **" +:+ risk_level risk +:+ "** |";
    ""%string;
    "> *ALE = Likelihood x Impact (Single Loss Expectancy)*"%string;
    ""%string ]
  ++ breakdown_lines (observables assessment)
  ++ [ "---"; ""; "## Recommended Actions"; "" ]%string
  ++ numbered 1 (_recommendations (risk_level risk))
  ++ [ ""; "---"; "*Report generated by SOC Risk Engine*" ]%string.

Definition generate_report (assessment : CaseRiskAssessment) : string :=
  match risk_score assessment with
  | None => "**Error:** Case has not been scored yet."%string
  | Some risk => String.concat newline (report_lines assessment risk)
  end.

End Reporter.

(** ** Vocabulary for the further properties *)

(** The taxonomies of a job sit under report, summary. *)
Definition job_taxonomies (job : gmap string json) (taxonomies : json) : Prop :=
  exists report summary,
    job !! "report"%string = Some (JObj report) /\
    report !! "summary"%string = Some (JObj summary) /\
    summary !! "taxonomies"%string = Some taxonomies.

(** A result mirrors the fields of the taxonomy entry it was made from:
    namespace and predicate as they are, the raw value through [str], the
    score through [_parse_score]. *)
Definition mirrors (py_float : string -> option Q) (py_str : json -> string)
  (tax : json) (r : Dynamic.AnalyzerResult) : Prop :=
  exists fields, tax = JObj fields /\
    Dynamic.namespace r = Py.get fields "namespace" (JStr "") /\
    Dynamic.predicate r = Py.get fields "predicate" (JStr "") /\
    Dynamic.raw_value r = str py_str (Py.get fields "value" (JStr "")) /\
    _parse_score_value py_float py_str (Py.get fields "value" (JStr "0"))
    = Ok (Dynamic.score r).

(** A job that carries a non-empty report. *)
Definition has_report (job : gmap string json) : Prop :=
  exists report, job !! "report"%string = Some report /\ PyJson.truthy report = true.

(** The number of results with a given level. *)
Definition count_of (lvl : string) (results : list AnalyzerResult) : nat :=
  length (filter (fun r => level r = lvl) results).

(** A job without a report, whose report Cortex serves separately. *)
Definition bare_job : gmap string json :=
  {[ "id"%string := JStr "AWx1"; "analyzerName"%string := JStr "AbuseIPDB_1_0" ]}.

Definition served_report : json :=
  JObj {[ "summary"%string := JObj {[ "taxonomies"%string :=
    JArr [ JObj {[ "level"%string := JStr "suspicious";
                   "value"%string := JStr "42" ]} ] ]} ]}.

Definition serve_report (job_id : json) : result json :=
  match job_id with
  | JStr "AWx1" => Ok (JObj {[ "report"%string := served_report ]})
  | _ => Ok JNull
  end.

(** * Properties *)

(** ** Comparisons, sums and the division *)

Lemma geb_le (a b : Q) : Py.geb a b = true <-> b <= a.
Proof. unfold Py.geb. apply Qle_bool_iff. Qed.

Lemma geb_lt (a b : Q) : Py.geb a b = false <-> a < b.
Proof.
  unfold Py.geb. split.
  - intros H. apply Qnot_le_lt. intros Hle. apply Qle_bool_iff in Hle. congruence.
  - intros H. destruct (Qle_bool b a) eqn:E; [|reflexivity].
    apply Qle_bool_iff in E. exfalso. apply (Qlt_not_le _ _ H E).
Qed.

Lemma ltb_lt (a b : Q) : Py.ltb a b = true <-> a < b.
Proof.
  unfold Py.ltb. rewrite negb_true_iff. apply (geb_lt a b).
Qed.

Lemma ltb_ge (a b : Q) : Py.ltb a b = false <-> b <= a.
Proof.
  unfold Py.ltb. rewrite negb_false_iff. apply (geb_le a b).
Qed.

Lemma min_le_r (a b : Q) : Py.min a b <= b.
Proof.
  unfold Py.min. destruct (Py.ltb b a) eqn:E.
  - apply Qle_refl.
  - apply ltb_ge in E. exact E.
Qed.

Lemma min_glb (a b c : Q) : c <= a -> c <= b -> c <= Py.min a b.
Proof. intros Ha Hb. unfold Py.min. destruct (Py.ltb b a); assumption. Qed.

Lemma min_clamp (a : Q) : Py.min a 1 = clamp_to_one a.
Proof.
  unfold Py.min, clamp_to_one, Py.ltb. destruct (Qle_bool a 1); reflexivity.
Qed.

Lemma clamp_below (a : Q) : a <= 1 -> clamp_to_one a = a.
Proof.
  intros H. unfold clamp_to_one. apply Qle_bool_iff in H. rewrite H. reflexivity.
Qed.

Lemma fold_plus_acc (xs : list Q) (a : Q) :
  fold_left Qplus xs a == a + foldr Qplus 0 xs.
Proof.
  revert a. induction xs as [|x xs IH]; intros a; simpl.
  - ring.
  - rewrite IH. ring.
Qed.

Lemma sum_foldr (xs : list Q) : Py.sum xs == foldr Qplus 0 xs.
Proof. unfold Py.sum. rewrite fold_plus_acc. ring. Qed.

Lemma foldr_nonneg (xs : list Q) :
  Forall (fun x => 0 <= x) xs -> 0 <= foldr Qplus 0 xs.
Proof.
  induction 1 as [|x xs Hx _ IH]; simpl.
  - apply Qle_refl.
  - replace 0 with (0 + 0) by reflexivity. apply Qplus_le_compat; assumption.
Qed.

Lemma length_positive (n : nat) : 0 < inject_Z (Z.of_nat (S n)).
Proof.
  unfold Qlt. simpl. lia.
Qed.

Lemma div_by_length (a : Q) (n : nat) :
  Py.div a (inject_Z (Z.of_nat (S n))) = Ok (a / inject_Z (Z.of_nat (S n))).
Proof.
  unfold Py.div.
  destruct (Qeq_bool (inject_Z (Z.of_nat (S n))) 0) eqn:E; [|reflexivity].
  apply Qeq_bool_eq in E. pose proof (length_positive n) as H.
  rewrite E in H. exfalso. apply (Qlt_irrefl 0 H).
Qed.

Lemma getitem_Some {V} (d : gmap string V) (k : string) (v : V) :
  d !! k = Some v -> Py.getitem d k = Ok v.
Proof. intros H. unfold Py.getitem. rewrite H. reflexivity. Qed.

(** ** classify_risk *)

Section Classify.

Variable cfg : Config.
Variables critical high medium low : Q.
Hypothesis Hcritical : RISK_THRESHOLDS cfg !! "critical"%string = Some critical.
Hypothesis Hhigh : RISK_THRESHOLDS cfg !! "high"%string = Some high.
Hypothesis Hmedium : RISK_THRESHOLDS cfg !! "medium"%string = Some medium.
Hypothesis Hlow : RISK_THRESHOLDS cfg !! "low"%string = Some low.

Lemma classify_risk_unfold (x : Q) :
  classify_risk cfg x =
    Ok (if Py.geb x critical then "Critical"
        else if Py.geb x high then "High"
        else if Py.geb x medium then "Medium"
        else if Py.geb x low then "Low"
        else "Info")%string.
Proof.
  unfold classify_risk.
  rewrite (getitem_Some _ _ _ Hcritical), (getitem_Some _ _ _ Hhigh),
    (getitem_Some _ _ _ Hmedium), (getitem_Some _ _ _ Hlow).
  simpl. destruct (Py.geb x critical), (Py.geb x high), (Py.geb x medium),
    (Py.geb x low); reflexivity.
Qed.

Lemma classify_risk_rank_monotone (x y : Q) :
  x <= y ->
  exists lx ly, classify_risk cfg x = Ok lx /\ classify_risk cfg y = Ok ly /\
    (severity_rank lx <= severity_rank ly)%nat.
Proof.
  intros Hxy. rewrite !classify_risk_unfold. eexists _, _.
  split; [reflexivity|]. split; [reflexivity|].
  assert (mono : forall t, Py.geb x t = true -> Py.geb y t = true).
  { intros t Ht. apply geb_le. apply geb_le in Ht. eapply Qle_trans; eassumption. }
  destruct (Py.geb x critical) eqn:E1.
  { rewrite (mono _ E1). vm_compute; lia. }
  destruct (Py.geb x high) eqn:E2.
  { rewrite (mono _ E2). destruct (Py.geb y critical); vm_compute; lia. }
  destruct (Py.geb x medium) eqn:E3.
  { rewrite (mono _ E3).
    destruct (Py.geb y critical), (Py.geb y high); vm_compute; lia. }
  destruct (Py.geb x low) eqn:E4.
  { rewrite (mono _ E4).
    destruct (Py.geb y critical), (Py.geb y high), (Py.geb y medium); vm_compute; lia. }
  destruct (Py.geb y critical), (Py.geb y high), (Py.geb y medium),
    (Py.geb y low); vm_compute; lia.
Qed.

End Classify.

(** C4. With the four cutoffs configured, [classify_risk] checks them in
    the order critical, high, medium, low: an ALE at or above the critical
    cutoff is "Critical"; otherwise one at or above the high cutoff is
    "High"; otherwise one at or above the medium cutoff is "Medium";
    otherwise one at or above the low cutoff is "Low"; otherwise "Info".
    Under monotonic cutoffs (critical >= high >= medium >= low) it is
    monotonic: for [ale1 <= ale2] the severity rank of the label of [ale1]
    is at most that of [ale2]. *)
Theorem classify_risk_order_and_monotone
  (cfg : Config) (critical high medium low : Q)
  (Hcritical : RISK_THRESHOLDS cfg !! "critical"%string = Some critical)
  (Hhigh : RISK_THRESHOLDS cfg !! "high"%string = Some high)
  (Hmedium : RISK_THRESHOLDS cfg !! "medium"%string = Some medium)
  (Hlow : RISK_THRESHOLDS cfg !! "low"%string = Some low) :
  (forall x, critical <= x -> classify_risk cfg x = Ok "Critical"%string) /\
  (forall x, x < critical -> high <= x -> classify_risk cfg x = Ok "High"%string) /\
  (forall x, x < critical -> x < high -> medium <= x ->
     classify_risk cfg x = Ok "Medium"%string) /\
  (forall x, x < critical -> x < high -> x < medium -> low <= x ->
     classify_risk cfg x = Ok "Low"%string) /\
  (forall x, x < critical -> x < high -> x < medium -> x < low ->
     classify_risk cfg x = Ok "Info"%string) /\
  (low <= medium -> medium <= high -> high <= critical ->
   forall ale1 ale2, ale1 <= ale2 ->
     exists l1 l2, classify_risk cfg ale1 = Ok l1 /\ classify_risk cfg ale2 = Ok l2 /\
       (severity_rank l1 <= severity_rank l2)%nat).
Proof.
  repeat split; intros;
    try (rewrite (classify_risk_unfold cfg critical high medium low) by assumption;
         repeat match goal with
                | H : _ <= _ |- _ => apply geb_le in H; rewrite H
                | H : _ < _ |- _ => apply geb_lt in H; rewrite H
                end; reflexivity).
  eapply classify_risk_rank_monotone; eassumption.
Qed.

(** ** compute_likelihood *)

Lemma size_list_to_set_remove_dups (l : list string) :
  size (list_to_set l : gset string) = length (remove_dups l).
Proof.
  rewrite <- (size_list_to_set (C := gset string) (remove_dups l))
    by apply NoDup_remove_dups.
  f_equal. apply set_eq. intros x.
  rewrite !elem_of_list_to_set, elem_of_remove_dups. reflexivity.
Qed.

Lemma unique_analyzers_distinct (results : list AnalyzerResult) :
  size (malicious_analyzers results) = distinct_malicious results.
Proof. apply size_list_to_set_remove_dups. Qed.

Lemma foldr_weights (cfg : Config) (results : list AnalyzerResult) :
  foldr Qplus 0 (verdict_weight cfg <$> results)
  = foldr (fun r acc => verdict_weight cfg r + acc) 0 results.
Proof.
  induction results as [|r rs IH]; [reflexivity|].
  rewrite fmap_cons. simpl. f_equal. exact IH.
Qed.

Lemma code_mean_weighted_mean (cfg : Config) (results : list AnalyzerResult) :
  Py.sum (verdict_weight cfg <$> results)
    / inject_Z (Z.of_nat (length (verdict_weight cfg <$> results)))
  == weighted_mean cfg results.
Proof.
  unfold weighted_mean. rewrite sum_foldr, foldr_weights, length_fmap. reflexivity.
Qed.

(** What [compute_likelihood] returns on a non-empty list. *)
Lemma compute_likelihood_cons (cfg : Config) (r : AnalyzerResult) (rs : list AnalyzerResult) :
  let results := r :: rs in
  let avg := Py.sum (verdict_weight cfg <$> results)
             / inject_Z (Z.of_nat (length (verdict_weight cfg <$> results))) in
  compute_likelihood cfg results =
    Ok (Py.min
          (if (MALICIOUS_CONSENSUS_THRESHOLD cfg <=? Z.of_nat (distinct_malicious results))%Z
           then avg * MALICIOUS_CONSENSUS_BOOST cfg else avg) 1).
Proof.
  intros results avg. unfold compute_likelihood. subst results.
  change (length (verdict_weight cfg <$> r :: rs))
    with (S (length (verdict_weight cfg <$> rs))) in *.
  rewrite div_by_length. simpl. rewrite unique_analyzers_distinct. reflexivity.
Qed.

Lemma compute_likelihood_returns (cfg : Config) (results : list AnalyzerResult) :
  returns (compute_likelihood cfg results).
Proof.
  destruct results as [|r rs].
  - exists 0. reflexivity.
  - eexists. apply compute_likelihood_cons.
Qed.

Lemma weights_nonneg (cfg : Config) (results : list AnalyzerResult) :
  (forall lvl w, VERDICT_WEIGHTS cfg !! lvl = Some w -> 0 <= w) ->
  Forall (fun x => 0 <= x) (verdict_weight cfg <$> results).
Proof.
  intros Hw. apply Forall_fmap, Forall_forall. intros r _. simpl.
  unfold verdict_weight, Py.get.
  destruct (VERDICT_WEIGHTS cfg !! level r) as [w|] eqn:E; simpl.
  - eapply Hw, E.
  - apply Qle_refl.
Qed.

Lemma clamp_to_one_compat (a b : Q) : a == b -> clamp_to_one a == clamp_to_one b.
Proof.
  intros H. unfold clamp_to_one.
  assert (E : Qle_bool a 1 = Qle_bool b 1) by (rewrite H; reflexivity).
  rewrite E. destruct (Qle_bool b 1); [exact H|reflexivity].
Qed.

(** C2. [compute_likelihood] returns a likelihood, and it is at most 1
    for every configuration and every list of results: the final value is
    clamped.  When every configured verdict weight is non-negative (and the
    boost factor, which the specification takes above 1, is not negative),
    the likelihood is also at least 0, boosted or not. *)
Theorem compute_likelihood_in_unit_interval
  (cfg : Config) (results : list AnalyzerResult) :
  exists lh, compute_likelihood cfg results = Ok lh /\
    lh <= 1 /\
    ((forall lvl w, VERDICT_WEIGHTS cfg !! lvl = Some w -> 0 <= w) ->
     0 <= MALICIOUS_CONSENSUS_BOOST cfg ->
     0 <= lh).
Proof.
  destruct results as [|r rs].
  - exists 0. split; [reflexivity|]. split; [discriminate|]. intros _ _. apply Qle_refl.
  - eexists. split; [apply compute_likelihood_cons|].
    split; [apply min_le_r|]. intros Hw Hb.
    apply min_glb; [|discriminate].
    assert (Havg : 0 <= Py.sum (verdict_weight cfg <$> r :: rs)
                       / inject_Z (Z.of_nat (length (verdict_weight cfg <$> r :: rs)))).
    { apply Qle_shift_div_l.
      - apply (length_positive (length (verdict_weight cfg <$> rs))).
      - rewrite Qmult_0_l, sum_foldr. apply foldr_nonneg, weights_nonneg, Hw. }
    destruct (_ <=? _)%Z; [|exact Havg].
    apply Qmult_le_0_compat; assumption.
Qed.

Lemma scenario_weights_nonneg (lvl : string) (w : Q) :
  VERDICT_WEIGHTS scenario_config !! lvl = Some w -> 0 <= w.
Proof.
  lazy beta iota delta [scenario_config VERDICT_WEIGHTS].
  rewrite !lookup_insert, lookup_singleton.
  repeat case_decide; try discriminate; intros [= <-]; discriminate.
Qed.

(** At the tables of scenario A, two analyzers reporting "malicious". *)
Lemma compute_likelihood_in_unit_interval_scenario :
  exists lh,
    compute_likelihood scenario_config
      [verdict "VirusTotal" "malicious"; verdict "AbuseIPDB" "malicious"] = Ok lh /\
    0 <= lh /\ lh <= 1.
Proof.
  destruct (compute_likelihood_in_unit_interval scenario_config
              [verdict "VirusTotal" "malicious"; verdict "AbuseIPDB" "malicious"])
    as (lh & Hlh & Hle & Hge).
  exists lh. split; [exact Hlh|]. split; [|exact Hle].
  apply Hge.
  - exact scenario_weights_nonneg.
  - discriminate.
Defined.

(** Scenario B: an ALE of 100000 dollars meets the high cutoff and is
    below the critical one; it ranks above an ALE of 999 dollars. *)
Lemma classify_risk_scenario :
  classify_risk scenario_config 100000 = Ok "High"%string /\
  exists l1 l2,
    classify_risk scenario_config 999 = Ok l1 /\
    classify_risk scenario_config 100000 = Ok l2 /\
    (severity_rank l1 <= severity_rank l2)%nat.
Proof.
  destruct (classify_risk_order_and_monotone scenario_config
              500000 100000 10000 1000) as (_ & Hhigh & _ & _ & _ & Hmono);
    try (vm_compute; reflexivity).
  split.
  - apply Hhigh; [reflexivity | discriminate].
  - apply Hmono; discriminate.
Defined.

(** One analyzer with a malicious verdict of weight 2: the mean is 2, the
    consensus threshold of 2 analyzers is not met, and the returned
    likelihood is 1, not the mean. *)
Lemma compute_likelihood_mean_above_one :
  (Z.of_nat (distinct_malicious [verdict "VirusTotal" "malicious"])
     < MALICIOUS_CONSENSUS_THRESHOLD heavy_config)%Z /\
  weighted_mean heavy_config [verdict "VirusTotal" "malicious"] == 2 /\
  exists lh,
    compute_likelihood heavy_config [verdict "VirusTotal" "malicious"] = Ok lh /\
    lh == 1 /\
    ~ lh == weighted_mean heavy_config [verdict "VirusTotal" "malicious"].
Proof.
  split; [reflexivity|]. split; [reflexivity|].
  eexists. split; [vm_compute; reflexivity|].
  split; [reflexivity | discriminate].
Qed.

(** C3 (amended). On a non-empty list [compute_likelihood] multiplies the
    arithmetic mean of the verdict weights by the boost factor exactly when
    the number of distinct analyzer identities that reported "malicious" is
    at least the consensus threshold, and clamps the outcome to at most 1:
    at or above the threshold the likelihood is the boosted mean clamped,
    below it the likelihood is the mean clamped, which is the unmodified
    mean whenever the mean does not exceed 1.  The count is of analyzer
    identities, not of entries: two malicious entries of one analyzer among
    four do not reach a threshold of 2.  With the tables of scenario A, two
    distinct analyzers reporting "malicious" give mean 1, boosted 1.2,
    clamped to 1. *)
Theorem compute_likelihood_consensus :
  (forall (cfg : Config) (results : list AnalyzerResult),
     results <> [] ->
     exists lh, compute_likelihood cfg results = Ok lh /\
       ((MALICIOUS_CONSENSUS_THRESHOLD cfg <= Z.of_nat (distinct_malicious results))%Z ->
          lh == clamp_to_one (weighted_mean cfg results * MALICIOUS_CONSENSUS_BOOST cfg)) /\
       ((Z.of_nat (distinct_malicious results) < MALICIOUS_CONSENSUS_THRESHOLD cfg)%Z ->
          lh == clamp_to_one (weighted_mean cfg results) /\
          (weighted_mean cfg results <= 1 -> lh == weighted_mean cfg results))) /\
  (let results := one_analyzer 2 4 in
   malicious_entries results = 2%nat /\ distinct_malicious results = 1%nat /\
   exists lh, compute_likelihood scenario_config results = Ok lh /\ lh == 1 # 2) /\
  (let results := [verdict "VirusTotal" "malicious"; verdict "AbuseIPDB" "malicious"] in
   distinct_malicious results = 2%nat /\
   weighted_mean scenario_config results == 1 /\
   weighted_mean scenario_config results * MALICIOUS_CONSENSUS_BOOST scenario_config
     == 12 # 10 /\
   exists lh, compute_likelihood scenario_config results = Ok lh /\ lh == 1).
Proof.
  split; [|split].
  - intros cfg [|r rs] Hne; [congruence|].
    eexists. split; [apply compute_likelihood_cons|].
    rewrite min_clamp. split.
    + intros Hthr. apply Z.leb_le in Hthr. rewrite Hthr.
      apply clamp_to_one_compat. rewrite code_mean_weighted_mean. reflexivity.
    + intros Hthr. apply Z.leb_gt in Hthr. rewrite Hthr.
      assert (E : clamp_to_one
                    (Py.sum (verdict_weight cfg <$> r :: rs)
                     / inject_Z (Z.of_nat (length (verdict_weight cfg <$> r :: rs))))
                  == clamp_to_one (weighted_mean cfg (r :: rs))).
      { apply clamp_to_one_compat, code_mean_weighted_mean. }
      split; [exact E|]. intros Hle. rewrite E, (clamp_below _ Hle). reflexivity.
  - split; [reflexivity|]. split; [reflexivity|].
    eexists. split; [vm_compute; reflexivity | reflexivity].
  - split; [reflexivity|]. split; [reflexivity|]. split; [reflexivity|].
    eexists. split; [vm_compute; reflexivity | reflexivity].
Qed.

(** Below the threshold, with a mean under 1: one suspicious and one safe
    verdict give the mean 0.25 unchanged. *)
Lemma compute_likelihood_consensus_scenario :
  exists lh,
    compute_likelihood scenario_config
      [verdict "VirusTotal" "suspicious"; verdict "AbuseIPDB" "safe"] = Ok lh /\
    lh == 1 # 4.
Proof.
  destruct (proj1 compute_likelihood_consensus scenario_config
              [verdict "VirusTotal" "suspicious"; verdict "AbuseIPDB" "safe"])
    as (lh & Hlh & _ & Hbelow); [discriminate|].
  exists lh. split; [exact Hlh|].
  destruct Hbelow as [_ Hmean]; [reflexivity|].
  rewrite Hmean; [reflexivity | discriminate].
Defined.

(** ** compute_impact and score_case *)

Lemma compute_impact_returns (cfg : Config) (asset tier : string) :
  config_complete cfg -> returns (compute_impact cfg asset tier).
Proof.
  intros ([dm Hdm] & _). unfold compute_impact.
  rewrite (getitem_Some _ _ _ Hdm). eexists. reflexivity.
Qed.

Lemma classify_risk_returns (cfg : Config) (x : Q) :
  config_complete cfg -> returns (classify_risk cfg x).
Proof.
  intros (_ & [c Hc] & [h Hh] & [m Hm] & [l Hl]).
  rewrite (classify_risk_unfold cfg c h m l Hc Hh Hm Hl). eexists. reflexivity.
Qed.

Lemma geb_compat (x y t : Q) : x == y -> Py.geb x t = Py.geb y t.
Proof. intros H. unfold Py.geb. rewrite H. reflexivity. Qed.

Lemma classify_risk_compat (cfg : Config) (x y : Q) :
  x == y -> classify_risk cfg x = classify_risk cfg y.
Proof.
  intros H. unfold classify_risk.
  destruct (Py.getitem (RISK_THRESHOLDS cfg) "critical") as [c|]; [simpl|reflexivity].
  rewrite (geb_compat x y c H). destruct (Py.geb y c); [reflexivity|].
  destruct (Py.getitem (RISK_THRESHOLDS cfg) "high") as [h|]; [simpl|reflexivity].
  rewrite (geb_compat x y h H). destruct (Py.geb y h); [reflexivity|].
  destruct (Py.getitem (RISK_THRESHOLDS cfg) "medium") as [m|]; [simpl|reflexivity].
  rewrite (geb_compat x y m H). destruct (Py.geb y m); [reflexivity|].
  destruct (Py.getitem (RISK_THRESHOLDS cfg) "low") as [l|]; [simpl|reflexivity].
  rewrite (geb_compat x y l H). reflexivity.
Qed.

Lemma score_observable_scored (cfg : Config) (o : ObservableRisk) :
  exists o', score_observable cfg o = Ok (o', likelihood o') /\ scored_by cfg o o'.
Proof.
  destruct (compute_likelihood_returns cfg (analyzer_results o)) as [lh Hlh].
  unfold score_observable. rewrite Hlh. simpl.
  exists {| observable := observable o;
            analyzer_results := analyzer_results o;
            likelihood := lh |}.
  split; [reflexivity|]. repeat split. exact Hlh.
Qed.

(** The loop visits the observables in stored order and collects their
    likelihoods in that order. *)
Lemma score_observables_scored (cfg : Config) (obs : list ObservableRisk) :
  exists obs', score_observables cfg obs = Ok (obs', likelihood <$> obs') /\
    Forall2 (scored_by cfg) obs obs'.
Proof.
  induction obs as [|o obs (obs' & Hobs & Hall)].
  - exists []. split; [reflexivity | constructor].
  - destruct (score_observable_scored cfg o) as (o' & Ho & Hs).
    exists (o' :: obs'). split; [|constructor; assumption].
    simpl. rewrite Ho. simpl. rewrite Hobs. reflexivity.
Qed.

Lemma max_upper_bound (x : Q) (xs : list Q) :
  x <= Py.max x xs /\ Forall (fun y => y <= Py.max x xs) xs.
Proof.
  unfold Py.max. revert x. induction xs as [|y ys IH]; intros x; simpl.
  - split; [apply Qle_refl | constructor].
  - destruct (Py.ltb x y) eqn:E.
    + destruct (IH y) as [Hy Hys]. apply ltb_lt in E.
      split; [|constructor; assumption].
      eapply Qle_trans; [apply Qlt_le_weak, E | exact Hy].
    + destruct (IH x) as [Hx Hys]. apply ltb_ge in E.
      split; [exact Hx|]. constructor; [|exact Hys].
      eapply Qle_trans; eassumption.
Qed.

Lemma max_elem (x : Q) (xs : list Q) : Py.max x xs ∈ x :: xs.
Proof.
  unfold Py.max. revert x. induction xs as [|y ys IH]; intros x; simpl.
  - apply list_elem_of_here.
  - destruct (Py.ltb x y).
    + apply list_elem_of_further, IH.
    + specialize (IH x). apply elem_of_cons in IH as [-> | IH].
      * apply list_elem_of_here.
      * do 2 apply list_elem_of_further. exact IH.
Qed.

Lemma case_likelihood_maximum (likelihoods : list Q) :
  likelihoods <> [] -> is_maximum (case_likelihood_of likelihoods) likelihoods.
Proof.
  destruct likelihoods as [|x xs]; [congruence|]. intros _. simpl. split.
  - apply max_elem.
  - destruct (max_upper_bound x xs). constructor; assumption.
Qed.

(** What [score_case] returns under a complete configuration. *)
Lemma score_case_returns (cfg : Config) (a : CaseRiskAssessment) :
  config_complete cfg ->
  exists obs' impact lvl,
    Forall2 (scored_by cfg) (observables a) obs' /\
    compute_impact cfg (asset_type a) (sensitivity a) = Ok impact /\
    classify_risk cfg (case_likelihood_of (likelihood <$> obs') * impact) = Ok lvl /\
    let risk :=
      {| rs_likelihood := Py.round (case_likelihood_of (likelihood <$> obs')) 4;
         impact_dollars := impact;
         ale := Py.round (case_likelihood_of (likelihood <$> obs') * impact) 2;
         risk_level := lvl |} in
    score_case cfg a =
      Ok ({| case_id := case_id a; case_title := case_title a;
             timestamp := timestamp a; asset_type := asset_type a;
             sensitivity := sensitivity a; observables := obs';
             risk_score := Some risk |}, risk).
Proof.
  intros Hcfg.
  destruct (score_observables_scored cfg (observables a)) as (obs' & Hobs & Hall).
  destruct (compute_impact_returns cfg (asset_type a) (sensitivity a) Hcfg)
    as [impact Himpact].
  destruct (classify_risk_returns cfg
              (case_likelihood_of (likelihood <$> obs') * impact) Hcfg) as [lvl Hlvl].
  exists obs', impact, lvl. repeat (split; [assumption|]).
  unfold score_case. rewrite Hobs. simpl. rewrite Himpact. simpl.
  rewrite Hlvl. reflexivity.
Qed.

Lemma round_zero (x : Q) (n : nat) : x == 0 -> Py.round x n == 0.
Proof.
  intros H. unfold Py.round, Py.round_half_even. cbv zeta.
  assert (E : x * inject_Z (10 ^ Z.of_nat n) == 0) by (rewrite H; ring).
  rewrite (Qfloor_comp _ _ E). change (Qfloor 0) with 0%Z.
  assert (C : Qcompare (x * inject_Z (10 ^ Z.of_nat n) - inject_Z 0) (1 # 2) = Lt).
  { assert (E0 : x * inject_Z (10 ^ Z.of_nat n) - inject_Z 0 == 0)
      by (rewrite E; reflexivity).
    rewrite (Qcompare_comp _ 0 E0 (1 # 2) (1 # 2) (Qeq_refl _)). reflexivity. }
  rewrite C. unfold Qdiv. ring.
Qed.

Lemma scenario_config_complete : config_complete scenario_config.
Proof. repeat split; vm_compute; eexists; reflexivity. Qed.





(** C5. Under a complete configuration [score_case] returns; every owned
    observable has been scored, in stored order, with the likelihood
    [compute_likelihood] gives for its verdicts written into its likelihood
    field; the case likelihood, which enters the ALE and (rounded to 4
    places) the RiskScore, is the maximum of those likelihoods, or 0 when
    the assessment owns no observables. *)
Theorem score_case_worst_case (cfg : Config) (a : CaseRiskAssessment) :
  config_complete cfg ->
  exists a' risk cl,
    score_case cfg a = Ok (a', risk) /\
    Forall2 (scored_by cfg) (observables a) (observables a') /\
    (observables a = [] -> cl = 0) /\
    (observables a <> [] -> is_maximum cl (likelihood <$> observables a')) /\
    rs_likelihood risk = Py.round cl 4 /\
    ale risk = Py.round (cl * impact_dollars risk) 2.
Proof.
  intros Hcfg.
  destruct (score_case_returns cfg a Hcfg) as (obs' & impact & lvl & Hall & _ & _ & Hrun).
  eexists _, _, (case_likelihood_of (likelihood <$> obs')).
  split; [exact Hrun|]. simpl. split; [exact Hall|]. split; [|split].
  - intros Hnil. rewrite Hnil in Hall. apply Forall2_nil_inv_l in Hall as ->.
    reflexivity.
  - intros Hne. apply case_likelihood_maximum.
    destruct Hall; [congruence | discriminate].
  - split; reflexivity.
Qed.

(** Observables with likelihoods 0.1, 0.9 and 0.3 give the case
    likelihood 0.9. *)
Lemma score_case_worst_case_three_observables :
  exists a' risk,
    score_case scenario_config (case_of "database" "high" three_observables)
      = Ok (a', risk) /\
    Forall2 Qeq (likelihood <$> observables a') [1 # 10; 9 # 10; 3 # 10] /\
    rs_likelihood risk == 9 # 10.
Proof.
  destruct (score_case_worst_case scenario_config
              (case_of "database" "high" three_observables)
              scenario_config_complete)
    as (a' & risk & cl & Hrun & _).
  exists a', risk. split; [exact Hrun|].
  vm_compute in Hrun. injection Hrun as <- <-.
  split; [|reflexivity].
  repeat constructor.
Defined.

(** With a low cutoff of 0 dollars, a case without observables has
    likelihood 0 and ALE 0 and is labelled "Low". *)
Lemma score_case_no_observables_low :
  exists a' risk,
    score_case floor_config (case_of "database" "high" []) = Ok (a', risk) /\
    rs_likelihood risk == 0 /\ ale risk == 0 /\
    risk_level risk = "Low"%string.
Proof.
  eexists _, _. split; [vm_compute; reflexivity|].
  split; [reflexivity|]. split; reflexivity.
Qed.

(** C7 (amended). Under a complete configuration, for every assessment
    that owns no observables [score_case] produces a RiskScore with
    likelihood 0 and ALE 0; its risk level is "Info" exactly when the four
    cutoffs are all above 0. *)
Theorem score_case_no_observables
  (cfg : Config) (a : CaseRiskAssessment) (critical high medium low : Q) :
  is_Some (SENSITIVITY_MULTIPLIERS cfg !! DEFAULT_SENSITIVITY cfg) ->
  RISK_THRESHOLDS cfg !! "critical"%string = Some critical ->
  RISK_THRESHOLDS cfg !! "high"%string = Some high ->
  RISK_THRESHOLDS cfg !! "medium"%string = Some medium ->
  RISK_THRESHOLDS cfg !! "low"%string = Some low ->
  observables a = [] ->
  exists a' risk,
    score_case cfg a = Ok (a', risk) /\
    rs_likelihood risk == 0 /\
    ale risk == 0 /\
    (risk_level risk = "Info"%string <->
     0 < critical /\ 0 < high /\ 0 < medium /\ 0 < low).
Proof.
  intros Hdm Hc Hh Hm Hl Hnil.
  assert (Hcfg : config_complete cfg) by (repeat split; eauto).
  destruct (score_case_returns cfg a Hcfg) as (obs' & impact & lvl & Hall & _ & Hlvl & Hrun).
  rewrite Hnil in Hall. apply Forall2_nil_inv_l in Hall as ->.
  simpl in Hlvl, Hrun.
  eexists _, _. split; [exact Hrun|]. simpl.
  split; [apply round_zero; reflexivity|].
  split; [apply round_zero; ring|].
  rewrite (classify_risk_compat cfg (0 * impact) 0) in Hlvl by ring.
  rewrite (classify_risk_unfold cfg critical high medium low Hc Hh Hm Hl) in Hlvl.
  injection Hlvl as <-.
  destruct (Py.geb 0 critical) eqn:E1; [|apply geb_lt in E1].
  { apply geb_le in E1. split; [discriminate|].
    intros (H & _). exfalso. apply (Qlt_not_le _ _ H E1). }
  destruct (Py.geb 0 high) eqn:E2; [|apply geb_lt in E2].
  { apply geb_le in E2. split; [discriminate|].
    intros (_ & H & _). exfalso. apply (Qlt_not_le _ _ H E2). }
  destruct (Py.geb 0 medium) eqn:E3; [|apply geb_lt in E3].
  { apply geb_le in E3. split; [discriminate|].
    intros (_ & _ & H & _). exfalso. apply (Qlt_not_le _ _ H E3). }
  destruct (Py.geb 0 low) eqn:E4; [|apply geb_lt in E4].
  { apply geb_le in E4. split; [discriminate|].
    intros (_ & _ & _ & H). exfalso. apply (Qlt_not_le _ _ H E4). }
  split; [intros _; repeat split; assumption | reflexivity].
Qed.

(** Scenario B's cutoffs are positive: the empty case is "Info". *)
Lemma score_case_no_observables_scenario :
  exists a' risk,
    score_case scenario_config (case_of "database" "high" []) = Ok (a', risk) /\
    rs_likelihood risk == 0 /\ ale risk == 0 /\
    risk_level risk = "Info"%string.
Proof.
  destruct (score_case_no_observables scenario_config
              (case_of "database" "high" []) 500000 100000 10000 1000)
    as (a' & risk & Hrun & Hlh & Hale & Hlevel);
    try (vm_compute; reflexivity).
  { vm_compute. eexists. reflexivity. }
  exists a', risk. repeat (split; [assumption|]).
  apply Hlevel. repeat split.
Defined.

(** ** compute_impact *)

Lemma nat_of_ascii_inj (a b : ascii) : nat_of_ascii a = nat_of_ascii b -> a = b.
Proof.
  intros H. rewrite <- (ascii_nat_embedding a), <- (ascii_nat_embedding b), H.
  reflexivity.
Qed.

Lemma lower_ascii_upper (a : ascii) :
  (65 <= nat_of_ascii a <= 90)%nat ->
  Py.lower_ascii a = ascii_of_nat (nat_of_ascii a + 32).
Proof.
  intros [H1 H2]. unfold Py.lower_ascii.
  apply Nat.leb_le in H1, H2. rewrite H1, H2. reflexivity.
Qed.

Lemma lower_ascii_other (a : ascii) :
  (90 < nat_of_ascii a)%nat -> Py.lower_ascii a = a.
Proof.
  intros H. unfold Py.lower_ascii.
  apply Nat.leb_gt in H. rewrite H, andb_false_r. reflexivity.
Qed.

Lemma lower_ascii_same (a b : ascii) :
  same_letter a b -> Py.lower_ascii a = Py.lower_ascii b.
Proof.
  unfold same_letter. intros [H | [[Ha Hb] | [Hb Ha]]].
  - apply nat_of_ascii_inj in H. congruence.
  - rewrite (lower_ascii_upper a Ha), (lower_ascii_other b) by lia.
    rewrite <- Hb. apply ascii_nat_embedding.
  - rewrite (lower_ascii_upper b Hb), (lower_ascii_other a) by lia.
    rewrite <- Ha. symmetry. apply ascii_nat_embedding.
Qed.

Lemma lower_same (s t : string) :
  same_ignoring_case s t -> Py.lower s = Py.lower t.
Proof.
  revert t. induction s as [|a s IH]; intros [|b t]; simpl; try tauto.
  intros [Hab Hst]. rewrite (lower_ascii_same a b Hab), (IH t Hst). reflexivity.
Qed.

(** C6. [compute_impact] is a function of the configuration and its two
    arguments alone (it reads no state and changes none): with a multiplier
    configured for the default tier it returns base times multiplier, where
    the base is the value listed for the lower-cased asset type, or the
    default value when none is listed, and the multiplier is the one listed
    for the lower-cased tier, or that of the default tier when none is
    listed.  Arguments that differ only in the case of their letters give
    the same impact. *)
Theorem compute_impact_case_insensitive (cfg : Config) (dm : Q) :
  SENSITIVITY_MULTIPLIERS cfg !! DEFAULT_SENSITIVITY cfg = Some dm ->
  forall asset tier : string,
    (exists base multiplier,
       compute_impact cfg asset tier = Ok (base * multiplier) /\
       (forall v, ASSET_VALUES cfg !! Py.lower asset = Some v -> base = v) /\
       (ASSET_VALUES cfg !! Py.lower asset = None -> base = DEFAULT_ASSET_VALUE cfg) /\
       (forall m, SENSITIVITY_MULTIPLIERS cfg !! Py.lower tier = Some m -> multiplier = m) /\
       (SENSITIVITY_MULTIPLIERS cfg !! Py.lower tier = None -> multiplier = dm)) /\
    (forall asset' tier' : string,
       same_ignoring_case asset asset' -> same_ignoring_case tier tier' ->
       compute_impact cfg asset' tier' = compute_impact cfg asset tier).
Proof.
  intros Hdm asset tier. split.
  - unfold compute_impact. rewrite (getitem_Some _ _ _ Hdm). simpl.
    eexists _, _. split; [reflexivity|]. unfold Py.get.
    repeat split; intros; match goal with H : _ !! _ = _ |- _ => rewrite H end;
      reflexivity.
  - intros asset' tier' Ha Ht. unfold compute_impact.
    rewrite (lower_same _ _ Ha), (lower_same _ _ Ht). reflexivity.
Qed.

(** Scenario B, in capitals: a database of high sensitivity has an
    impact of 200000 dollars; an unlisted asset of an unlisted tier has the
    default value times the multiplier of the default tier. *)
Lemma compute_impact_scenario :
  compute_impact scenario_config "database" "high" = Ok (100000 * 2) /\
  compute_impact scenario_config "DataBase" "HIGH"
    = compute_impact scenario_config "database" "high" /\
  compute_impact scenario_config "toaster" "secret" = Ok (10000 * 1).
Proof.
  assert (Hdm : SENSITIVITY_MULTIPLIERS scenario_config
                  !! DEFAULT_SENSITIVITY scenario_config = Some 1)
    by (vm_compute; reflexivity).
  pose proof (compute_impact_case_insensitive scenario_config 1 Hdm) as H.
  split; [|split].
  - destruct (H "database" "high")%string as [(b & m & Hrun & Hb & _ & Hm & _) _].
    rewrite Hrun, (Hb 100000), (Hm 2); [reflexivity | |]; vm_compute; reflexivity.
  - destruct (H "database" "high")%string as [_ Hcase].
    apply Hcase; vm_compute; intuition (auto; lia).
  - destruct (H "toaster" "secret")%string as [(b & m & Hrun & _ & Hb & _ & Hm) _].
    rewrite Hrun, Hb, Hm; [reflexivity | |]; vm_compute; reflexivity.
Defined.

(** ** The scoring path raises nothing *)

Lemma weight_of_unlisted (cfg : Config) (r : AnalyzerResult) :
  VERDICT_WEIGHTS cfg !! level r = None -> verdict_weight cfg r = 0.
Proof. intros H. unfold verdict_weight, Py.get. rewrite H. reflexivity. Qed.

(** C8. Under a complete configuration (a multiplier for the default tier
    and the four cutoffs are configured) no step of the scoring path
    raises, for any list of results and any assessment: [compute_likelihood],
    [compute_impact], [classify_risk], [score_observable] and [score_case]
    all return.  An asset type and a tier that are not listed give the
    default value times the multiplier of the default tier; a verdict level
    that is not listed contributes the weight 0, and so does every level
    outside the canonical four when the weight table lists only those. *)
Theorem scoring_path_never_raises (cfg : Config) :
  config_complete cfg ->
  (forall results, returns (compute_likelihood cfg results)) /\
  (forall asset tier, returns (compute_impact cfg asset tier)) /\
  (forall x, returns (classify_risk cfg x)) /\
  (forall o, returns (score_observable cfg o)) /\
  (forall a, returns (score_case cfg a)) /\
  (forall asset tier dm,
     SENSITIVITY_MULTIPLIERS cfg !! DEFAULT_SENSITIVITY cfg = Some dm ->
     ASSET_VALUES cfg !! Py.lower asset = None ->
     SENSITIVITY_MULTIPLIERS cfg !! Py.lower tier = None ->
     compute_impact cfg asset tier = Ok (DEFAULT_ASSET_VALUE cfg * dm)) /\
  (forall r, VERDICT_WEIGHTS cfg !! level r = None -> verdict_weight cfg r = 0) /\
  ((forall k, is_Some (VERDICT_WEIGHTS cfg !! k) -> k ∈ canonical_levels) ->
   forall r, level r ∉ canonical_levels -> verdict_weight cfg r = 0).
Proof.
  intros Hcfg. repeat split.
  - intros results. apply compute_likelihood_returns.
  - intros asset tier. apply compute_impact_returns, Hcfg.
  - intros x. apply classify_risk_returns, Hcfg.
  - intros o. destruct (score_observable_scored cfg o) as (o' & Ho & _).
    eexists. exact Ho.
  - intros a.
    destruct (score_case_returns cfg a Hcfg) as (obs' & impact & lvl & _ & _ & _ & Hrun).
    eexists. exact Hrun.
  - intros asset tier dm Hdm Ha Ht. unfold compute_impact, Py.get.
    rewrite (getitem_Some _ _ _ Hdm), Ha, Ht. reflexivity.
  - apply weight_of_unlisted.
  - intros Hkeys r Hr. apply weight_of_unlisted.
    destruct (VERDICT_WEIGHTS cfg !! level r) eqn:E; [|reflexivity].
    exfalso. apply Hr, Hkeys. rewrite E. eexists. reflexivity.
Qed.

(** An unlisted asset, an unlisted tier and a verdict level outside the
    four: the case is scored, the verdict weighs 0. *)
Lemma scoring_path_never_raises_scenario :
  returns (score_case scenario_config
             (case_of "toaster" "secret"
                [unscored "evil.example" [verdict "VirusTotal" "bogus"]])) /\
  verdict_weight scenario_config (verdict "VirusTotal" "bogus") = 0.
Proof.
  destruct (scoring_path_never_raises scenario_config scenario_config_complete)
    as (_ & _ & _ & _ & Hcase & _ & Hweight & _).
  split; [apply Hcase|]. apply Hweight. vm_compute. reflexivity.
Defined.

(** ** _parse_score *)

Lemma split_not_nil (c : ascii) (s : string) : PyStr.split c s <> [].
Proof.
  destruct s as [|a s]; simpl; [discriminate|].
  destruct (Ascii.eqb a c); [discriminate|].
  destruct (PyStr.split c s); discriminate.
Qed.

(** A string with a separator splits into at least two parts. *)
Lemma split_two_parts (c : ascii) (s : string) :
  PyStr.contains c s = true ->
  exists p0 p1 rest, PyStr.split c s = p0 :: p1 :: rest.
Proof.
  induction s as [|a s IH]; simpl; [discriminate|].
  destruct (Ascii.eqb a c); simpl.
  - intros _. destruct (PyStr.split c s) as [|p ps] eqn:E.
    + exfalso. exact (split_not_nil c s E).
    + eexists _, _, _. reflexivity.
  - intros H. destruct (IH H) as (p0 & p1 & rest & ->).
    eexists _, _, _. reflexivity.
Qed.

Lemma split_no_separator (c : ascii) (s : string) :
  PyStr.contains c s = false -> PyStr.split c s = [s].
Proof.
  induction s as [|a s IH]; simpl; [reflexivity|].
  destruct (Ascii.eqb a c); simpl; [discriminate|].
  intros H. rewrite (IH H). reflexivity.
Qed.

Lemma split_fraction (c : ascii) (a b : string) :
  PyStr.contains c a = false -> PyStr.contains c b = false ->
  PyStr.split c (String.append a (String c b)) = [a; b].
Proof.
  intros Ha Hb. induction a as [|x a IH]; simpl in *.
  - rewrite Ascii.eqb_refl, (split_no_separator c b Hb). reflexivity.
  - destruct (Ascii.eqb x c); simpl in Ha; [discriminate|].
    rewrite (IH Ha). reflexivity.
Qed.

Lemma contains_fraction (c : ascii) (a b : string) :
  PyStr.contains c (String.append a (String c b)) = true.
Proof.
  induction a as [|x a IH]; simpl.
  - rewrite Ascii.eqb_refl. reflexivity.
  - rewrite IH. apply orb_true_r.
Qed.

Section ParseScore.

Variable py_float : string -> option Q.

Lemma parse_score_body_raises (value : string) :
  returns (parse_score_body py_float value) \/
  parse_score_body py_float value = Raise ValueError \/
  parse_score_body py_float value = Raise ZeroDivisionError.
Proof.
  unfold parse_score_body, float.
  destruct (PyStr.contains "/" value) eqn:E.
  - destruct (split_two_parts _ _ E) as (p0 & p1 & rest & ->). simpl.
    destruct (py_float p0) as [a|]; simpl; [|tauto].
    destruct (py_float p1) as [b|]; simpl; [|tauto].
    unfold Py.div. destruct (Qeq_bool b 0); [tauto|]. left. eexists. reflexivity.
  - destruct (py_float value); [left; eexists; reflexivity | tauto].
Qed.

Lemma parse_score_returns (value : string) : returns (_parse_score py_float value).
Proof.
  unfold _parse_score.
  destruct (parse_score_body_raises value) as [[q ->] | [-> | ->]];
    eexists; reflexivity.
Qed.

Lemma parse_score_fraction_body (a b : string) :
  PyStr.contains "/" a = false -> PyStr.contains "/" b = false ->
  parse_score_body py_float (String.append a (String "/" b))
  = (x ← float py_float a; y ← float py_float b; Py.div x y).
Proof.
  intros Ha Hb. unfold parse_score_body.
  rewrite contains_fraction, (split_fraction _ _ _ Ha Hb). reflexivity.
Qed.

End ParseScore.

(** C9. [_parse_score] returns a number for every taxonomy value string,
    whatever [float] accepts.  A fraction string a/b whose two parts are
    numeric and whose denominator is not zero gives a divided by b; a zero
    denominator gives 0, a non-numeric numerator or denominator gives 0; a
    string without a slash gives its numeric value, and 0 when it is not
    numeric. *)
Theorem parse_score_tolerant (py_float : string -> option Q) :
  (forall value, returns (_parse_score py_float value)) /\
  (forall a b qa qb,
     PyStr.contains "/" a = false -> PyStr.contains "/" b = false ->
     py_float a = Some qa -> py_float b = Some qb ->
     (~ qb == 0 ->
      _parse_score py_float (String.append a (String "/" b)) = Ok (qa / qb)) /\
     (qb == 0 ->
      _parse_score py_float (String.append a (String "/" b)) = Ok 0)) /\
  (forall a b,
     PyStr.contains "/" a = false -> PyStr.contains "/" b = false ->
     py_float a = None \/ py_float b = None ->
     _parse_score py_float (String.append a (String "/" b)) = Ok 0) /\
  (forall value q,
     PyStr.contains "/" value = false -> py_float value = Some q ->
     _parse_score py_float value = Ok q) /\
  (forall value,
     PyStr.contains "/" value = false -> py_float value = None ->
     _parse_score py_float value = Ok 0).
Proof.
  split; [apply parse_score_returns|].
  split; [|split; [|split]].
  - intros a b qa qb Ha Hb Hqa Hqb.
    assert (Hbody : _parse_score py_float (String.append a (String "/" b))
                    = match Py.div qa qb with
                      | Raise ValueError => Ok 0
                      | Raise ZeroDivisionError => Ok 0
                      | r => r
                      end).
    { unfold _parse_score. rewrite parse_score_fraction_body by assumption.
      unfold float. rewrite Hqa, Hqb. reflexivity. }
    rewrite Hbody. unfold Py.div. split.
    + intros Hnz. destruct (Qeq_bool qb 0) eqn:E; [|reflexivity].
      exfalso. apply Hnz, Qeq_bool_eq, E.
    + intros Hz. apply Qeq_eq_bool in Hz. rewrite Hz. reflexivity.
  - intros a b Ha Hb Hnone. unfold _parse_score.
    rewrite parse_score_fraction_body by assumption. unfold float, Py.div.
    destruct Hnone as [-> | Hb']; [reflexivity|].
    rewrite Hb'. destruct (py_float a); reflexivity.
  - intros value q Hc Hq. unfold _parse_score, parse_score_body, float.
    rewrite Hc, Hq. reflexivity.
  - intros value Hc Hq. unfold _parse_score, parse_score_body, float.
    rewrite Hc, Hq. reflexivity.
Qed.

(** With decimal literals: "5/100" is 0.05, "1/0" and "n/a" are 0. *)
Lemma parse_score_tolerant_decimal :
  _parse_score decimal_float "5/100" = Ok (5 / 100) /\
  _parse_score decimal_float "1/0" = Ok 0 /\
  _parse_score decimal_float "n/a" = Ok 0 /\
  (exists q, _parse_score decimal_float "0.75" = Ok q /\ q == 3 # 4) /\
  _parse_score decimal_float "unknown" = Ok 0.
Proof.
  destruct (parse_score_tolerant decimal_float) as (_ & Hfrac & Hbad & Hnum & Hnone).
  split; [|split; [|split; [|split]]].
  - apply (Hfrac "5"%string "100"%string 5%Q 100%Q); try reflexivity. discriminate.
  - apply (Hfrac "1"%string "0"%string 1%Q 0%Q); reflexivity.
  - apply (Hbad "n"%string "a"%string); try reflexivity. left. reflexivity.
  - eexists. split; [apply Hnum; reflexivity|]. reflexivity.
  - apply Hnone; reflexivity.
Defined.

(** ** extract_verdicts *)

Lemma level_of_taxonomy_canonical (tax : json) :
  level_of_taxonomy tax ∈ canonical_levels.
Proof.
  assert (Hinfo : "info"%string ∈ canonical_levels)
    by (unfold canonical_levels; set_solver).
  unfold level_of_taxonomy. destruct tax as [| | | | |fields]; try exact Hinfo.
  destruct (fields !! "level"%string) as [[| | |s| |]|]; try exact Hinfo.
  case_bool_decide; [assumption | exact Hinfo].
Qed.

Lemma normalise_level_spec (fields : gmap string json) (l : string) :
  normalise_level fields = Ok l -> l = level_of_taxonomy (JObj fields).
Proof.
  unfold normalise_level, level_of_taxonomy, Py.get.
  destruct (fields !! "level"%string) as [[| | |s| |]|]; simpl; try discriminate.
  - case_bool_decide; simpl; intros [= <-]; reflexivity.
  - intros [= <-]. reflexivity.
Qed.

Lemma normalise_level_returns (fields : gmap string json) :
  str_or_absent fields "level" -> returns (normalise_level fields).
Proof.
  unfold normalise_level, Py.get. intros [-> | [s ->]]; simpl.
  - eexists. reflexivity.
  - case_bool_decide; eexists; reflexivity.
Qed.

(** A level that is there and is not a string has no [lower]. *)
Lemma normalise_level_raises (fields : gmap string json) (v : json) :
  fields !! "level"%string = Some v -> (forall s, v <> JStr s) ->
  normalise_level fields = Raise AttributeError.
Proof.
  intros Hv Hns. unfold normalise_level, Py.get. rewrite Hv. simpl.
  destruct v; try reflexivity. exfalso. eapply Hns. reflexivity.
Qed.

Section Extract.

Variable py_float : string -> option Q.
Variable py_str : json -> string.

(** On a string, [_parse_score] as the signature types it. *)
Lemma parse_score_value_str (s : string) :
  _parse_score_value py_float py_str (JStr s) = _parse_score py_float s.
Proof. reflexivity. Qed.

(** The split path raises nothing but what the handler catches. *)
Lemma parse_score_value_returns (value : json) :
  value_accepted value -> returns (_parse_score_value py_float py_str value).
Proof.
  intros Hv. unfold _parse_score_value, parse_score_value_body.
  destruct (PyStr.contains "/" (str py_str value)) eqn:E.
  - destruct (split_two_parts _ _ E) as (p0 & p1 & rest & ->). simpl.
    unfold float.
    destruct (py_float p0) as [a|]; simpl; [|eexists; reflexivity].
    destruct (py_float p1) as [b|]; simpl; [|eexists; reflexivity].
    unfold Py.div. destruct (Qeq_bool b 0); eexists; reflexivity.
  - destruct value as [| b | q | s | |]; simpl in Hv; try contradiction; simpl.
    + eexists. reflexivity.
    + eexists. reflexivity.
    + unfold float. destruct (py_float s); eexists; reflexivity.
Qed.

Lemma extract_verdict_level (name tax : json) (r : Dynamic.AnalyzerResult) :
  extract_verdict py_float py_str name tax = Ok r ->
  Dynamic.level r = level_of_taxonomy tax.
Proof.
  unfold extract_verdict. destruct tax as [| | | | |fields]; simpl; try discriminate.
  destruct (normalise_level fields) as [l|] eqn:El; simpl; [|discriminate].
  apply normalise_level_spec in El. subst l.
  destruct (_parse_score_value py_float py_str _); simpl; [|discriminate].
  intros [= <-]. reflexivity.
Qed.

(** The loop yields one result per taxonomy entry, in order. *)
Lemma extract_loop_levels (name : json) (taxonomies : list json)
  (rs : list Dynamic.AnalyzerResult) :
  extract_loop py_float py_str name taxonomies = Ok rs ->
  Forall2 (fun tax r => Dynamic.level r = level_of_taxonomy tax) taxonomies rs.
Proof.
  revert rs. induction taxonomies as [|tax rest IH]; intros rs; simpl.
  - intros [= <-]. constructor.
  - destruct (extract_verdict py_float py_str name tax) as [r|] eqn:Er; simpl;
      [|discriminate].
    destruct (extract_loop py_float py_str name rest) as [rs'|]; simpl; [|discriminate].
    intros [= <-]. constructor; [|apply IH; reflexivity].
    eapply extract_verdict_level, Er.
Qed.

Lemma extract_verdict_returns (name tax : json) :
  taxonomy_accepted tax -> returns (extract_verdict py_float py_str name tax).
Proof.
  intros (fields & -> & Hlevel & Hvalue).
  unfold extract_verdict. simpl.
  destruct (normalise_level_returns fields Hlevel) as [l ->]. simpl.
  destruct (parse_score_value_returns _ Hvalue) as [q ->]. simpl.
  eexists. reflexivity.
Qed.


(** An entry of the documented shape is taken. *)
Lemma taxonomy_shaped_accepted (tax : json) :
  taxonomy_shaped tax -> taxonomy_accepted tax.
Proof.
  intros (fields & -> & Hlevel & Hvalue & _). exists fields.
  split; [reflexivity|]. split; [exact Hlevel|].
  unfold Py.get. destruct Hvalue as [-> | [s ->]]; exact I.
Qed.

(** After entries that are taken, an entry that is not an object, or whose
    level is there and not a string, stops the loop. *)
Lemma extract_loop_raises (name : json) (before : list json) (bad : json)
  (after : list json) :
  Forall taxonomy_accepted before ->
  (forall fields, bad = JObj fields ->
     exists v, fields !! "level"%string = Some v /\ forall s, v <> JStr s) ->
  extract_loop py_float py_str name (before ++ bad :: after) = Raise AttributeError.
Proof.
  intros Hbefore Hbad. induction Hbefore as [|tax rest Htax _ IH]; simpl.
  - assert (Hone : extract_verdict py_float py_str name bad = Raise AttributeError).
    { unfold extract_verdict. destruct bad as [| | | | |fields]; try reflexivity.
      destruct (Hbad fields eq_refl) as (v & Hv & Hns). simpl.
      rewrite (normalise_level_raises fields v Hv Hns). reflexivity. }
    rewrite Hone. reflexivity.
  - destruct (extract_verdict_returns name tax Htax) as [r ->]. simpl.
    rewrite IH. reflexivity.
Qed.

Lemma or_dict (fields : gmap string json) :
  PyJson.as_dict (PyJson.or (JObj fields) (JObj ∅)) = Ok fields.
Proof.
  unfold PyJson.or. simpl. case_bool_decide as E; simpl; [|reflexivity].
  apply map_size_empty_iff in E. subst fields. reflexivity.
Qed.

(** [extract_verdicts] on a job whose taxonomies are reachable. *)
Lemma extract_verdicts_unfold (job : gmap string json) (taxonomies : json) :
  job_taxonomies job taxonomies ->
  extract_verdicts py_float py_str job =
    if negb (PyJson.truthy taxonomies) then Ok []
    else items ← PyJson.iterate taxonomies;
         extract_loop py_float py_str (Py.get job "analyzerName" (JStr "unknown")) items.
Proof.
  intros (report & summary & Hreport & Hsummary & Htax).
  unfold extract_verdicts.
  assert (E1 : Py.get job "report" (JObj ∅) = JObj report)
    by (unfold Py.get; rewrite Hreport; reflexivity).
  rewrite E1, or_dict. simpl.
  assert (E2 : Py.get report "summary" (JObj ∅) = JObj summary)
    by (unfold Py.get; rewrite Hsummary; reflexivity).
  rewrite E2, or_dict. simpl.
  assert (E3 : Py.get summary "taxonomies" (JArr []) = taxonomies)
    by (unfold Py.get; rewrite Htax; reflexivity).
  rewrite E3. reflexivity.
Qed.

(** On a list of taxonomies the loop runs over its entries. *)
Lemma extract_verdicts_list (job : gmap string json) (taxonomies : list json) :
  job_taxonomies job (JArr taxonomies) ->
  extract_verdicts py_float py_str job
  = extract_loop py_float py_str (Py.get job "analyzerName" (JStr "unknown")) taxonomies.
Proof.
  intros Htax. rewrite (extract_verdicts_unfold job _ Htax).
  destruct taxonomies as [|tax rest]; reflexivity.
Qed.

(** Whatever [extract_verdicts] returns came out of its loop. *)
Lemma extract_verdicts_loop (job : gmap string json) (rs : list Dynamic.AnalyzerResult) :
  extract_verdicts py_float py_str job = Ok rs ->
  exists items,
    extract_loop py_float py_str (Py.get job "analyzerName" (JStr "unknown")) items
    = Ok rs.
Proof.
  unfold extract_verdicts.
  destruct (PyJson.as_dict _) as [report|]; simpl; [|discriminate].
  destruct (PyJson.as_dict _) as [summary|]; simpl; [|discriminate].
  destruct (negb _); [intros [= <-]; exists []; reflexivity|].
  destruct (PyJson.iterate _) as [items|]; simpl; [|discriminate].
  intros H. exists items. exact H.
Qed.

Lemma extract_verdicts_canonical (job : gmap string json)
  (rs : list Dynamic.AnalyzerResult) :
  extract_verdicts py_float py_str job = Ok rs ->
  Forall (fun r => Dynamic.level r ∈ canonical_levels) rs.
Proof.
  intros Hrun. destruct (extract_verdicts_loop job rs Hrun) as [items Hloop].
  apply extract_loop_levels in Hloop. clear Hrun.
  induction Hloop as [|tax r ? ? Hr _ IH]; constructor; [|exact IH].
  rewrite Hr. apply level_of_taxonomy_canonical.
Qed.

End Extract.




(** * Further properties of the scoring core *)

(** ** Re-scoring *)

Lemma score_observable_again (cfg : Config) (o o' : ObservableRisk) (lh : Q) :
  score_observable cfg o = Ok (o', lh) -> score_observable cfg o' = Ok (o', lh).
Proof.
  unfold score_observable.
  destruct (compute_likelihood cfg (analyzer_results o)) as [x|] eqn:E; simpl;
    [|discriminate].
  intros [= <- <-]. simpl. rewrite E. reflexivity.
Qed.

Lemma score_observables_again (cfg : Config) (obs obs' : list ObservableRisk)
  (lhs : list Q) :
  score_observables cfg obs = Ok (obs', lhs) ->
  score_observables cfg obs' = Ok (obs', lhs).
Proof.
  revert obs' lhs. induction obs as [|o obs IH]; intros obs' lhs; simpl.
  - intros [= <- <-]. reflexivity.
  - destruct (score_observable cfg o) as [[o' lh]|] eqn:Eo; simpl; [|discriminate].
    destruct (score_observables cfg obs) as [[rest' lhs']|] eqn:Er; simpl;
      [|discriminate].
    intros [= <- <-]. simpl.
    rewrite (score_observable_again cfg o o' lh Eo). simpl.
    rewrite (IH rest' lhs' eq_refl). reflexivity.
Qed.

(** Re-scoring: [score_case] applied to the assessment it has just scored
    returns the same RiskScore and leaves the assessment as it is; the
    likelihoods and the score written by the first pass do not enter the
    second.  The pass changes nothing but the likelihood of the observables
    and the attached score. *)
Theorem score_case_idempotent
  (cfg : Config) (a a' : CaseRiskAssessment) (risk : RiskScore) :
  score_case cfg a = Ok (a', risk) ->
  score_case cfg a' = Ok (a', risk) /\
  risk_score a' = Some risk /\
  case_id a' = case_id a /\ case_title a' = case_title a /\
  timestamp a' = timestamp a /\
  asset_type a' = asset_type a /\ sensitivity a' = sensitivity a /\
  observable <$> observables a' = observable <$> observables a /\
  analyzer_results <$> observables a' = analyzer_results <$> observables a.
Proof.
  unfold score_case.
  destruct (score_observables cfg (observables a)) as [[obs' lhs]|] eqn:Eo; simpl;
    [|discriminate].
  destruct (compute_impact cfg (asset_type a) (sensitivity a)) as [impact|] eqn:Ei;
    simpl; [|discriminate].
  destruct (classify_risk cfg (case_likelihood_of lhs * impact)) as [lvl|] eqn:El;
    simpl; [|discriminate].
  intros [= <- <-]. simpl.
  rewrite (score_observables_again cfg _ _ _ Eo). simpl. rewrite Ei. simpl.
  rewrite El. simpl. repeat (split; [reflexivity|]).
  clear Ei El. revert obs' lhs Eo.
  induction (observables a) as [|o obs IH]; intros obs' lhs; simpl.
  - intros [= <- <-]. split; reflexivity.
  - unfold score_observable.
    destruct (compute_likelihood cfg (analyzer_results o)); simpl; [|discriminate].
    destruct (score_observables cfg obs) as [[rest' lhs']|]; simpl; [|discriminate].
    intros [= <- <-]. destruct (IH rest' lhs' eq_refl) as [H1 H2].
    rewrite !fmap_cons, H1, H2. split; reflexivity.
Qed.

(** The three-observable case, scored twice. *)
Lemma score_case_idempotent_three_observables :
  exists a' risk,
    score_case scenario_config (case_of "database" "high" three_observables)
      = Ok (a', risk) /\
    score_case scenario_config a' = Ok (a', risk).
Proof.
  destruct (score_case_returns scenario_config
              (case_of "database" "high" three_observables)
              scenario_config_complete)
    as (obs' & impact & lvl & _ & _ & _ & Hrun).
  eexists _, _. split; [exact Hrun|].
  apply (score_case_idempotent scenario_config _ _ _ Hrun).
Defined.

(** ** The reported likelihood is a probability *)

Lemma round_half_even_lower (y : Q) (k : Z) :
  inject_Z k <= y -> (k <= Py.round_half_even y)%Z.
Proof.
  intros H. assert (Hf : (k <= Qfloor y)%Z).
  { apply Qfloor_resp_le in H. rewrite Qfloor_Z in H. exact H. }
  unfold Py.round_half_even. cbv zeta. clear H.
  destruct (Qcompare _ _); [destruct (Z.even _)| |]; lia.
Qed.

Lemma round_half_even_upper (y : Q) (m : Z) :
  y <= inject_Z m -> (Py.round_half_even y <= m)%Z.
Proof.
  intros H. assert (Hf : (Qfloor y <= m)%Z).
  { apply Qfloor_resp_le in H. rewrite Qfloor_Z in H. exact H. }
  unfold Py.round_half_even. cbv zeta.
  destruct (Z.eq_dec (Qfloor y) m) as [E|E].
  - assert (Hz : y - inject_Z (Qfloor y) == 0).
    { apply Qle_antisym.
      - rewrite E. apply (Qplus_le_l _ _ (inject_Z m)). ring_simplify. exact H.
      - apply (Qplus_le_l _ _ (inject_Z (Qfloor y))). ring_simplify.
        apply Qfloor_le. }
    rewrite (Qcompare_comp _ 0 Hz (1 # 2) (1 # 2) (Qeq_refl _)).
    change (Qcompare 0 (1 # 2)) with Lt. cbv beta iota. clear H Hz. lia.
  - clear H. destruct (Qcompare _ _); [destruct (Z.even _)| |]; lia.
Qed.

Lemma power_of_ten_positive (n : nat) : 0 < inject_Z (10 ^ Z.of_nat n).
Proof.
  change 0 with (inject_Z 0). rewrite <- Zlt_Qlt. apply Z.pow_pos_nonneg; lia.
Qed.

Lemma round_nonneg (x : Q) (n : nat) : 0 <= x -> 0 <= Py.round x n.
Proof.
  intros H. unfold Py.round. pose proof (power_of_ten_positive n) as Hp.
  apply Qle_shift_div_l; [exact Hp|]. rewrite Qmult_0_l.
  change 0 with (inject_Z 0). rewrite <- Zle_Qle.
  apply round_half_even_lower. change (inject_Z 0) with 0.
  apply Qmult_le_0_compat; [exact H | apply Qlt_le_weak, Hp].
Qed.

Lemma round_at_most_one (x : Q) (n : nat) : x <= 1 -> Py.round x n <= 1.
Proof.
  intros H. unfold Py.round. pose proof (power_of_ten_positive n) as Hp.
  apply Qle_shift_div_r; [exact Hp|]. rewrite Qmult_1_l.
  rewrite <- Zle_Qle. apply round_half_even_upper.
  rewrite <- (Qmult_1_l (inject_Z (10 ^ Z.of_nat n))) at 2.
  apply Qmult_le_compat_r; [exact H | apply Qlt_le_weak, Hp].
Qed.

Lemma likelihood_in_unit_interval (cfg : Config) (results : list AnalyzerResult) (lh : Q) :
  (forall lvl w, VERDICT_WEIGHTS cfg !! lvl = Some w -> 0 <= w) ->
  0 <= MALICIOUS_CONSENSUS_BOOST cfg ->
  compute_likelihood cfg results = Ok lh -> 0 <= lh /\ lh <= 1.
Proof.
  intros Hw Hb. destruct results as [|r rs].
  - intros [= <-]. split; discriminate.
  - rewrite compute_likelihood_cons. intros [= <-].
    split; [|apply min_le_r]. apply min_glb; [|discriminate].
    assert (Havg : 0 <= Py.sum (verdict_weight cfg <$> r :: rs)
                       / inject_Z (Z.of_nat (length (verdict_weight cfg <$> r :: rs)))).
    { apply Qle_shift_div_l.
      - apply (length_positive (length (verdict_weight cfg <$> rs))).
      - rewrite Qmult_0_l, sum_foldr. apply foldr_nonneg, weights_nonneg, Hw. }
    destruct (_ <=? _)%Z; [|exact Havg].
    apply Qmult_le_0_compat; assumption.
Qed.

(** What a returning [score_case] has computed. *)
Lemma score_case_inv (cfg : Config) (a a' : CaseRiskAssessment) (risk : RiskScore) :
  score_case cfg a = Ok (a', risk) ->
  exists impact,
    Forall2 (scored_by cfg) (observables a) (observables a') /\
    compute_impact cfg (asset_type a) (sensitivity a) = Ok impact /\
    impact_dollars risk = impact /\
    rs_likelihood risk = Py.round (case_likelihood_of (likelihood <$> observables a')) 4 /\
    ale risk
      = Py.round (case_likelihood_of (likelihood <$> observables a') * impact) 2 /\
    classify_risk cfg (case_likelihood_of (likelihood <$> observables a') * impact)
      = Ok (risk_level risk).
Proof.
  unfold score_case.
  destruct (score_observables_scored cfg (observables a)) as (obs' & -> & Hall).
  simpl.
  destruct (compute_impact cfg (asset_type a) (sensitivity a)) as [impact|];
    simpl; [|discriminate].
  destruct (classify_risk cfg _) as [lvl|] eqn:El; simpl; [|discriminate].
  intros [= <- <-]. simpl. exists impact. repeat split; assumption.
Qed.

Lemma case_likelihood_bounds (likelihoods : list Q) :
  Forall (fun x => 0 <= x /\ x <= 1) likelihoods ->
  0 <= case_likelihood_of likelihoods /\ case_likelihood_of likelihoods <= 1.
Proof.
  intros Hall. destruct likelihoods as [|x xs].
  - split; discriminate.
  - destruct (case_likelihood_maximum (x :: xs)) as [Hin _]; [discriminate|].
    rewrite Forall_forall in Hall. apply Hall, Hin.
Qed.

(** The reported likelihood is a probability.  When no verdict weight and
    not the boost factor is negative, a returning [score_case] leaves every
    observable with a likelihood between 0 and 1 and reports a likelihood
    between 0 and 1, rounding included; with an impact that is not
    negative the reported ALE is not negative either. *)
Theorem score_case_reports_probability
  (cfg : Config) (a a' : CaseRiskAssessment) (risk : RiskScore) :
  (forall lvl w, VERDICT_WEIGHTS cfg !! lvl = Some w -> 0 <= w) ->
  0 <= MALICIOUS_CONSENSUS_BOOST cfg ->
  score_case cfg a = Ok (a', risk) ->
  (0 <= rs_likelihood risk /\ rs_likelihood risk <= 1) /\
  Forall (fun o => 0 <= likelihood o /\ likelihood o <= 1) (observables a') /\
  (0 <= impact_dollars risk -> 0 <= ale risk).
Proof.
  intros Hw Hb Hrun.
  destruct (score_case_inv cfg a a' risk Hrun)
    as (impact & Hall & _ & Himpact & Hlh & Hale & _).
  assert (Hobs : Forall (fun o => 0 <= likelihood o /\ likelihood o <= 1) (observables a')).
  { clear Hlh Hale Hrun. induction Hall as [|o o' ? ? (_ & _ & Ho) _ IH]; constructor.
    - eapply likelihood_in_unit_interval; eassumption.
    - exact IH. }
  assert (Hcl : 0 <= case_likelihood_of (likelihood <$> observables a')
                /\ case_likelihood_of (likelihood <$> observables a') <= 1).
  { apply case_likelihood_bounds, Forall_fmap. exact Hobs. }
  split; [|split; [exact Hobs|]].
  - rewrite Hlh. split; [apply round_nonneg | apply round_at_most_one]; apply Hcl.
  - intros Hi. rewrite Hale. apply round_nonneg.
    apply Qmult_le_0_compat; [apply Hcl | rewrite <- Himpact; exact Hi].
Qed.

(** Likelihoods 0.1, 0.9, 0.3 and the reported 0.9. *)
Lemma score_case_reports_probability_three_observables :
  exists a' risk,
    score_case scenario_config (case_of "database" "high" three_observables)
      = Ok (a', risk) /\
    0 <= rs_likelihood risk /\ rs_likelihood risk <= 1 /\ 0 <= ale risk.
Proof.
  assert (Hrun : exists a' risk,
            score_case scenario_config (case_of "database" "high" three_observables)
              = Ok (a', risk) /\
            0 <= impact_dollars risk).
  { eexists _, _. split; [vm_compute; reflexivity | vm_compute; discriminate]. }
  destruct Hrun as (a' & risk & Hrun & Hi).
  exists a', risk. split; [exact Hrun|].
  destruct (score_case_reports_probability scenario_config _ _ _
              scenario_weights_nonneg ltac:(discriminate) Hrun)
    as ((H0 & H1) & _ & Hale).
  split; [exact H0|]. split; [exact H1|]. apply Hale, Hi.
Defined.

(** ** Missing configuration entries *)

(** [compute_impact] subscripts the multiplier table at the default tier
    before it looks at its arguments: without a multiplier for the default
    tier it raises [KeyError] for every asset type and every tier, listed or
    not, and so does [score_case] for every assessment; with one it
    returns. *)
Theorem compute_impact_needs_default_tier (cfg : Config) :
  (SENSITIVITY_MULTIPLIERS cfg !! DEFAULT_SENSITIVITY cfg = None ->
   (forall asset tier,
      compute_impact cfg asset tier = Raise (KeyError (DEFAULT_SENSITIVITY cfg))) /\
   (forall a, score_case cfg a = Raise (KeyError (DEFAULT_SENSITIVITY cfg)))) /\
  (is_Some (SENSITIVITY_MULTIPLIERS cfg !! DEFAULT_SENSITIVITY cfg) ->
   forall asset tier, returns (compute_impact cfg asset tier)).
Proof.
  split.
  - intros Hnone.
    assert (Himpact : forall asset tier,
              compute_impact cfg asset tier = Raise (KeyError (DEFAULT_SENSITIVITY cfg))).
    { intros asset tier. unfold compute_impact, Py.getitem. rewrite Hnone. reflexivity. }
    split; [exact Himpact|]. intros a. unfold score_case.
    destruct (score_observables_scored cfg (observables a)) as (obs' & -> & _).
    simpl. rewrite Himpact. reflexivity.
  - intros [dm Hdm] asset tier. unfold compute_impact.
    rewrite (getitem_Some _ _ _ Hdm). eexists. reflexivity.
Qed.

(** [classify_risk] subscripts the cutoffs one at a time, as far as it
    needs them: without a critical cutoff it raises [KeyError] for every
    ALE; an ALE at or above the critical cutoff is "Critical" whatever else
    the table holds or lacks; below it, a missing high cutoff raises.  What
    it returns is one of the five labels. *)
Theorem classify_risk_missing_cutoff (cfg : Config) (x : Q) :
  (RISK_THRESHOLDS cfg !! "critical"%string = None ->
   classify_risk cfg x = Raise (KeyError "critical")) /\
  (forall c, RISK_THRESHOLDS cfg !! "critical"%string = Some c -> c <= x ->
     classify_risk cfg x = Ok "Critical"%string) /\
  (forall c, RISK_THRESHOLDS cfg !! "critical"%string = Some c -> x < c ->
     RISK_THRESHOLDS cfg !! "high"%string = None ->
     classify_risk cfg x = Raise (KeyError "high")) /\
  (forall label, classify_risk cfg x = Ok label ->
     label ∈ ["Critical"; "High"; "Medium"; "Low"; "Info"]%string).
Proof.
  unfold classify_risk, Py.getitem. repeat split.
  - intros ->. reflexivity.
  - intros c -> Hc. simpl. apply geb_le in Hc. rewrite Hc. reflexivity.
  - intros c -> Hc ->. simpl. apply geb_lt in Hc. rewrite Hc. reflexivity.
  - intros label.
    destruct (RISK_THRESHOLDS cfg !! "critical"%string); simpl; [|discriminate].
    destruct (Py.geb x _); [intros [= <-]; set_solver|].
    destruct (RISK_THRESHOLDS cfg !! "high"%string); simpl; [|discriminate].
    destruct (Py.geb x _); [intros [= <-]; set_solver|].
    destruct (RISK_THRESHOLDS cfg !! "medium"%string); simpl; [|discriminate].
    destruct (Py.geb x _); [intros [= <-]; set_solver|].
    destruct (RISK_THRESHOLDS cfg !! "low"%string); simpl; [|discriminate].
    destruct (Py.geb x _); intros [= <-]; set_solver.
Qed.

(** ** Consensus needs several analyzers *)

Lemma remove_dups_constant (name : string) (l : list string) :
  Forall (fun x => x = name) l -> (length (remove_dups l) <= 1)%nat.
Proof.
  induction 1 as [|x l -> Hl IH]; simpl; [lia|].
  destruct (decide_rel elem_of name l) as [_|Hnot]; [exact IH|].
  destruct l as [|y l]; [simpl; lia|].
  exfalso. apply Hnot. inversion Hl; subst. apply list_elem_of_here.
Qed.

Lemma distinct_malicious_one_name (results : list AnalyzerResult) (name : string) :
  (forall r, r ∈ results -> level r = "malicious"%string -> analyzer_name r = name) ->
  (distinct_malicious results <= 1)%nat.
Proof.
  intros H. unfold distinct_malicious. apply (remove_dups_constant name).
  apply Forall_fmap, Forall_forall. intros r Hr. simpl.
  apply list_elem_of_filter in Hr as [Hm Hr]. apply H; assumption.
Qed.

Lemma compute_likelihood_unboosted (cfg : Config) (results : list AnalyzerResult) :
  results <> [] ->
  (Z.of_nat (distinct_malicious results) < MALICIOUS_CONSENSUS_THRESHOLD cfg)%Z ->
  exists lh, compute_likelihood cfg results = Ok lh /\
    lh == clamp_to_one (weighted_mean cfg results).
Proof.
  intros Hne Hthr. destruct results as [|r rs]; [congruence|].
  eexists. split; [apply compute_likelihood_cons|].
  apply Z.leb_gt in Hthr. rewrite Hthr, min_clamp.
  apply clamp_to_one_compat, code_mean_weighted_mean.
Qed.

(** However many "malicious" entries a single analyzer emits, they do not
    make a consensus: when all malicious results carry one analyzer name and
    the threshold is 2 or more, the likelihood is the plain mean of the
    weights (clamped), never the boosted one. *)
Theorem single_analyzer_never_boosts
  (cfg : Config) (results : list AnalyzerResult) (name : string) :
  (forall r, r ∈ results -> level r = "malicious"%string -> analyzer_name r = name) ->
  (2 <= MALICIOUS_CONSENSUS_THRESHOLD cfg)%Z ->
  results <> [] ->
  exists lh, compute_likelihood cfg results = Ok lh /\
    lh == clamp_to_one (weighted_mean cfg results).
Proof.
  intros Hname Hthr Hne. apply compute_likelihood_unboosted; [exact Hne|].
  pose proof (distinct_malicious_one_name results name Hname). lia.
Qed.

(** Nine malicious entries of one analyzer among ten: 0.9, not boosted. *)
Lemma single_analyzer_never_boosts_nine_of_ten :
  exists lh, compute_likelihood scenario_config (one_analyzer 9 10) = Ok lh /\
    lh == 9 # 10.
Proof.
  destruct (single_analyzer_never_boosts scenario_config (one_analyzer 9 10)
              "VirusTotal") as (lh & Hrun & Hlh).
  - intros r Hr _. vm_compute in Hr.
    repeat (apply elem_of_cons in Hr as [-> | Hr]; [reflexivity|]).
    inversion Hr.
  - vm_compute. discriminate.
  - discriminate.
  - exists lh. split; [exact Hrun|]. rewrite Hlh. reflexivity.
Defined.

Lemma clamp_to_one_monotone (a b : Q) : a <= b -> clamp_to_one a <= clamp_to_one b.
Proof.
  intros H. unfold clamp_to_one.
  destruct (Qle_bool a 1) eqn:Ea, (Qle_bool b 1) eqn:Eb.
  - exact H.
  - apply Qle_bool_iff, Ea.
  - apply Qle_bool_iff in Eb. exfalso.
    assert (Ha : a <= 1) by (eapply Qle_trans; eassumption).
    apply Qle_bool_iff in Ha. congruence.
  - apply Qle_refl.
Qed.

(** A boost factor of at least 1 never lowers a likelihood: with
    non-negative verdict weights the likelihood of a non-empty list is at
    least the plain mean of the weights, clamped to 1. *)
Theorem consensus_boost_never_lowers
  (cfg : Config) (results : list AnalyzerResult) :
  (forall lvl w, VERDICT_WEIGHTS cfg !! lvl = Some w -> 0 <= w) ->
  1 <= MALICIOUS_CONSENSUS_BOOST cfg ->
  results <> [] ->
  exists lh, compute_likelihood cfg results = Ok lh /\
    clamp_to_one (weighted_mean cfg results) <= lh.
Proof.
  intros Hw Hb Hne. destruct results as [|r rs]; [congruence|].
  eexists. split; [apply compute_likelihood_cons|]. rewrite min_clamp.
  set (avg := Py.sum (verdict_weight cfg <$> r :: rs)
              / inject_Z (Z.of_nat (length (verdict_weight cfg <$> r :: rs)))).
  assert (Hmean : avg == weighted_mean cfg (r :: rs)) by apply code_mean_weighted_mean.
  assert (Havg : 0 <= avg).
  { apply Qle_shift_div_l.
    - apply (length_positive (length (verdict_weight cfg <$> rs))).
    - rewrite Qmult_0_l, sum_foldr. apply foldr_nonneg, weights_nonneg, Hw. }
  rewrite <- (clamp_to_one_compat _ _ Hmean).
  destruct (_ <=? _)%Z; [|apply Qle_refl].
  apply clamp_to_one_monotone.
  apply Qle_minus_iff.
  assert (E : avg * MALICIOUS_CONSENSUS_BOOST cfg + - avg
              == avg * (MALICIOUS_CONSENSUS_BOOST cfg + - (1))) by ring.
  rewrite E. apply Qmult_le_0_compat; [exact Havg|].
  apply Qle_minus_iff in Hb. exact Hb.
Qed.

(** Two analyzers, one malicious and one suspicious verdict each: the
    mean 0.75 is boosted to 0.9. *)
Lemma consensus_boost_never_lowers_two_analyzers :
  exists lh,
    compute_likelihood scenario_config
      [verdict "VirusTotal" "malicious"; verdict "VirusTotal" "suspicious";
       verdict "AbuseIPDB" "malicious"; verdict "AbuseIPDB" "suspicious"] = Ok lh /\
    3 # 4 <= lh /\ lh == 9 # 10.
Proof.
  destruct (consensus_boost_never_lowers scenario_config
              [verdict "VirusTotal" "malicious"; verdict "VirusTotal" "suspicious";
               verdict "AbuseIPDB" "malicious"; verdict "AbuseIPDB" "suspicious"]
              scenario_weights_nonneg) as (lh & Hrun & Hlh);
    [discriminate | discriminate |].
  exists lh. split; [exact Hrun|]. split.
  - eapply Qle_trans; [|exact Hlh]. vm_compute. discriminate.
  - vm_compute in Hrun. injection Hrun as <-. reflexivity.
Defined.

(** ** _parse_score beyond the second part *)

Lemma split_first_part (c : ascii) (a t : string) :
  PyStr.contains c a = false ->
  PyStr.split c (String.append a (String c t)) = a :: PyStr.split c t.
Proof.
  intros Ha. induction a as [|x a IH]; simpl in *.
  - rewrite Ascii.eqb_refl. reflexivity.
  - destruct (Ascii.eqb x c); simpl in Ha; [discriminate|].
    rewrite (IH Ha). reflexivity.
Qed.

(** Only the first two parts of a value count: what follows a second
    slash is ignored, so "a/b/rest" scores as "a/b" does. *)
Theorem parse_score_ignores_further_parts
  (py_float : string -> option Q) (a b rest : string) :
  PyStr.contains "/" a = false -> PyStr.contains "/" b = false ->
  _parse_score py_float
    (String.append a (String "/" (String.append b (String "/" rest))))
  = _parse_score py_float (String.append a (String "/" b)).
Proof.
  intros Ha Hb. unfold _parse_score.
  rewrite (parse_score_fraction_body py_float a b Ha Hb).
  unfold parse_score_body.
  rewrite contains_fraction, (split_first_part _ _ _ Ha), (split_first_part _ _ _ Hb).
  reflexivity.
Qed.

(** "1/4/2024" scores 0.25. *)
Lemma parse_score_ignores_further_parts_date :
  _parse_score decimal_float "1/4/2024" = _parse_score decimal_float "1/4" /\
  _parse_score decimal_float "1/4" = Ok (1 / 4).
Proof.
  split; [|reflexivity].
  apply (parse_score_ignores_further_parts decimal_float "1" "4" "2024");
    reflexivity.
Defined.

(** * Further properties of the verdict extraction *)

Section ExtractMore.

Variable py_float : string -> option Q.
Variable py_str : json -> string.

Lemma extract_verdict_mirrors (name tax : json) (r : Dynamic.AnalyzerResult) :
  extract_verdict py_float py_str name tax = Ok r ->
  mirrors py_float py_str tax r /\ Dynamic.analyzer_name r = name.
Proof.
  unfold extract_verdict. destruct tax as [| | | | |fields]; simpl; try discriminate.
  destruct (normalise_level fields) as [l|]; simpl; [|discriminate].
  destruct (_parse_score_value py_float py_str (Py.get fields "value" (JStr "0")))
    as [q|] eqn:Eq; simpl; [|discriminate].
  intros [= <-]. split; [|reflexivity].
  exists fields. simpl. repeat (split; [reflexivity|]). exact Eq.
Qed.

Lemma extract_loop_mirrors (name : json) (taxonomies : list json)
  (rs : list Dynamic.AnalyzerResult) :
  extract_loop py_float py_str name taxonomies = Ok rs ->
  Forall2 (mirrors py_float py_str) taxonomies rs /\
  Forall (fun r => Dynamic.analyzer_name r = name) rs.
Proof.
  revert rs. induction taxonomies as [|tax rest IH]; intros rs; simpl.
  - intros [= <-]. split; constructor.
  - destruct (extract_verdict py_float py_str name tax) as [r|] eqn:Er; simpl;
      [|discriminate].
    destruct (extract_loop py_float py_str name rest) as [rs'|]; simpl; [|discriminate].
    intros [= <-]. destruct (extract_verdict_mirrors _ _ _ Er) as [Hm Hn].
    destruct (IH rs' eq_refl) as [Hms Hns]. split; constructor; assumption.
Qed.

Lemma falsy_or_empty (v : json) :
  PyJson.truthy v = false -> PyJson.or v (JObj ∅) = JObj ∅.
Proof. intros H. unfold PyJson.or. rewrite H. reflexivity. Qed.

Lemma extract_verdicts_empty_summary (job : gmap string json) :
  PyJson.or (Py.get job "report" (JObj ∅)) (JObj ∅) = JObj ∅ ->
  extract_verdicts py_float py_str job = Ok [].
Proof. intros H. unfold extract_verdicts. rewrite H. reflexivity. Qed.

End ExtractMore.

(** A job without verdicts is not an error: a job that has no report, or a
    null or empty one, a report without a summary or with a null or empty
    one, a summary without taxonomies or with null or empty ones, all give
    the empty list. *)
Theorem extract_verdicts_without_taxonomies
  (py_float : string -> option Q) (py_str : json -> string)
  (job : gmap string json) :
  (job !! "report"%string = None \/
   (exists v, job !! "report"%string = Some v /\ PyJson.truthy v = false) ->
   extract_verdicts py_float py_str job = Ok []) /\
  (forall report,
     job !! "report"%string = Some (JObj report) ->
     report !! "summary"%string = None \/
     (exists v, report !! "summary"%string = Some v /\ PyJson.truthy v = false) ->
     extract_verdicts py_float py_str job = Ok []) /\
  (forall report summary,
     job !! "report"%string = Some (JObj report) ->
     report !! "summary"%string = Some (JObj summary) ->
     summary !! "taxonomies"%string = None \/
     (exists v, summary !! "taxonomies"%string = Some v /\ PyJson.truthy v = false) ->
     extract_verdicts py_float py_str job = Ok []).
Proof.
  split; [|split].
  - intros H. apply extract_verdicts_empty_summary. unfold Py.get.
    destruct H as [-> | (v & -> & Hv)]; [reflexivity|].
    apply falsy_or_empty, Hv.
  - intros report Hreport H. unfold extract_verdicts, Py.get.
    rewrite Hreport. simpl default. rewrite or_dict. simpl.
    assert (E : PyJson.or (default (JObj ∅) (report !! "summary"%string)) (JObj ∅)
                = JObj ∅).
    { destruct H as [-> | (v & -> & Hv)]; [reflexivity|]. apply falsy_or_empty, Hv. }
    rewrite E. reflexivity.
  - intros report summary Hreport Hsummary H. unfold extract_verdicts, Py.get.
    rewrite Hreport. simpl default. rewrite or_dict. simpl.
    rewrite Hsummary. simpl default. rewrite or_dict. simpl.
    destruct H as [-> | (v & -> & Hv)]; [reflexivity|].
    simpl default. rewrite Hv. reflexivity.
Qed.

(** A job whose report is null. *)
Lemma extract_verdicts_without_taxonomies_null_report :
  extract_verdicts decimal_float plain_str
    {[ "analyzerName"%string := JStr "MISP_2_1"; "report"%string := JNull ]} = Ok [].
Proof.
  apply (proj1 (extract_verdicts_without_taxonomies decimal_float plain_str _)).
  right. exists JNull. split; reflexivity.
Defined.

(** One malformed entry aborts the extraction of the job: when the
    taxonomies are a list in which, after entries of the documented shape,
    one entry is not an object, or has a level that is not a string,
    [extract_verdicts] raises [AttributeError] and returns none of the
    results before it.  Taxonomies that are a number other than 0 raise
    [TypeError]. *)
Theorem extract_verdicts_malformed_entry
  (py_float : string -> option Q) (py_str : json -> string)
  (job : gmap string json) :
  (forall before bad after,
     str_or_absent job "analyzerName" ->
     job_taxonomies job (JArr (before ++ bad :: after)) ->
     Forall taxonomy_shaped before ->
     (forall fields, bad = JObj fields ->
        exists v, fields !! "level"%string = Some v /\ forall s, v <> JStr s) ->
     extract_verdicts py_float py_str job = Raise AttributeError) /\
  (forall q,
     job_taxonomies job (JNum q) -> ~ q == 0 ->
     extract_verdicts py_float py_str job = Raise TypeError).
Proof.
  split.
  - intros before bad after _ Htax Hshaped Hbad.
    rewrite (extract_verdicts_list py_float py_str job _ Htax).
    apply extract_loop_raises; [|exact Hbad].
    eapply Forall_impl; [exact Hshaped|]. apply taxonomy_shaped_accepted.
  - intros q Htax Hq. rewrite (extract_verdicts_unfold py_float py_str job _ Htax).
    simpl. destruct (Qeq_bool q 0) eqn:E; [|reflexivity].
    exfalso. apply Hq, Qeq_bool_eq, E.
Qed.

(** A good entry followed by one whose level is null. *)
Lemma extract_verdicts_malformed_entry_null_level :
  extract_verdicts decimal_float plain_str
    {[ "report"%string := JObj {[ "summary"%string := JObj {[ "taxonomies"%string :=
         JArr [ JObj {[ "level"%string := JStr "safe" ]};
                JObj {[ "level"%string := JNull ]} ] ]} ]} ]}
  = Raise AttributeError.
Proof.
  apply (proj1 (extract_verdicts_malformed_entry decimal_float plain_str _)
           [JObj {[ "level"%string := JStr "safe" ]}]
           (JObj {[ "level"%string := JNull ]}) []).
  - left. reflexivity.
  - eexists _, _. repeat split; reflexivity.
  - constructor; [|constructor]. eexists. split; [reflexivity|].
    split; [right; eexists; reflexivity|]. repeat split; left; reflexivity.
  - intros fields [= <-]. exists JNull. split; [reflexivity | discriminate].
Defined.

(** Each result mirrors its entry, whatever the types of the fields.  On
    a job whose taxonomies are a list, a returning [extract_verdicts] gives
    one result per entry, in order; every result carries what the job
    holds under analyzerName ("unknown" for a job without one); its
    namespace and predicate are the values of the entry, the empty string
    where the entry has none; its raw value is [str] of the value, empty
    where the entry has none; its score is [_parse_score] of the value, and
    of "0" where the entry has none: a string is parsed, a number is its
    own score. *)
Theorem extract_verdicts_mirrors
  (py_float : string -> option Q) (py_str : json -> string)
  (job : gmap string json)
  (taxonomies : list json) (rs : list Dynamic.AnalyzerResult) :
  job_taxonomies job (JArr taxonomies) ->
  extract_verdicts py_float py_str job = Ok rs ->
  Forall2 (mirrors py_float py_str) taxonomies rs /\
  Forall (fun r => Dynamic.analyzer_name r = Py.get job "analyzerName" (JStr "unknown")) rs /\
  (job !! "analyzerName"%string = None ->
   Forall (fun r => Dynamic.analyzer_name r = JStr "unknown") rs) /\
  Forall2 (fun tax r =>
             forall fields, tax = JObj fields ->
               (forall s, fields !! "value"%string = Some (JStr s) ->
                  Dynamic.raw_value r = s /\
                  _parse_score py_float s = Ok (Dynamic.score r)) /\
               (forall q, fields !! "value"%string = Some (JNum q) ->
                  PyStr.contains "/" (py_str (JNum q)) = false ->
                  Dynamic.raw_value r = py_str (JNum q) /\ Dynamic.score r = q) /\
               (fields !! "value"%string = None ->
                  Dynamic.raw_value r = ""%string /\
                  _parse_score py_float "0" = Ok (Dynamic.score r)))
          taxonomies rs.
Proof.
  intros Htax. rewrite (extract_verdicts_list py_float py_str job _ Htax).
  intros Hloop. destruct (extract_loop_mirrors py_float py_str _ _ _ Hloop) as [Hm Hn].
  split; [exact Hm|]. split; [exact Hn|]. split.
  - intros Hnone. unfold Py.get in Hn. rewrite Hnone in Hn. exact Hn.
  - eapply Forall2_impl; [exact Hm|]. clear.
    intros tax r (fields & -> & _ & _ & Hraw & Hscore) fields' [= <-].
    unfold Py.get in Hraw, Hscore. split; [|split].
    + intros s Hs. rewrite Hs in Hraw, Hscore. simpl in Hraw, Hscore.
      split; [exact Hraw | exact Hscore].
    + intros q Hq Hslash. rewrite Hq in Hraw, Hscore. simpl in Hraw, Hscore.
      split; [exact Hraw|].
      unfold _parse_score_value, parse_score_value_body in Hscore.
      simpl in Hscore. rewrite Hslash in Hscore. simpl in Hscore.
      injection Hscore as ->. reflexivity.
    + intros Hnone. rewrite Hnone in Hraw, Hscore. simpl in Hraw, Hscore.
      split; [exact Hraw | exact Hscore].
Qed.

(** The job with numbers: the numeric value 42 gives the raw value "42"
    and the score 42; the numeric namespace is kept as the number it is. *)
Lemma extract_verdicts_mirrors_numeric_job :
  exists r1 r2,
    extract_verdicts decimal_float plain_str numeric_job = Ok [r1; r2] /\
    Dynamic.raw_value r1 = "42"%string /\ Dynamic.score r1 = 42 /\
    Dynamic.namespace r2 = JNum 7 /\
    Dynamic.analyzer_name r1 = JStr "MaxMind_GeoIP_4_0".
Proof.
  assert (Hrun : exists r1 r2,
            extract_verdicts decimal_float plain_str numeric_job = Ok [r1; r2]).
  { eexists _, _. vm_compute. reflexivity. }
  destruct Hrun as (r1 & r2 & Hrun). exists r1, r2. split; [exact Hrun|].
  destruct (extract_verdicts_mirrors decimal_float plain_str numeric_job
              [ JObj {[ "level"%string := JStr "Suspicious"; "value"%string := JNum 42 ]};
                JObj {[ "level"%string := JStr "unknown"; "namespace"%string := JNum 7 ]} ]
              [r1; r2])
    as (Hm & Hn & _ & Hv); [|exact Hrun|].
  { eexists _, _. repeat split; reflexivity. }
  apply Forall2_cons_1 in Hv as [Hv1 _].
  destruct (Hv1 _ eq_refl) as (_ & Hnum & _).
  destruct (Hnum 42) as [Hraw Hscore]; [reflexivity | reflexivity |].
  apply Forall2_cons_1 in Hm as [_ Hm].
  apply Forall2_cons_1 in Hm as [(fields & Hf & Hns & _) _].
  injection Hf as <-.
  apply Forall_cons_1 in Hn as [Hn1 _].
  repeat split; [exact Hraw | exact Hscore | exact Hns | exact Hn1].
Defined.

(** The verdicts of one job never make a consensus.  Every result of a
    job carries the analyzer name of that job, so for a job whose analyzer
    name is a string the calculator reads one name on all of them: with a
    threshold of 2 or more, the likelihood of the results of a single job
    is the plain mean of their weights (clamped), however many "malicious"
    entries the job has and whatever their other fields hold. *)
Theorem one_job_never_boosts
  (py_float : string -> option Q) (py_str : json -> string) (cfg : Config)
  (job : gmap string json)
  (built : list Dynamic.AnalyzerResult) (rs : list AnalyzerResult) :
  extract_verdicts py_float py_str job = Ok built ->
  Forall2 reads_as built rs ->
  rs <> [] ->
  (2 <= MALICIOUS_CONSENSUS_THRESHOLD cfg)%Z ->
  exists lh, compute_likelihood cfg rs = Ok lh /\
    lh == clamp_to_one (weighted_mean cfg rs).
Proof.
  intros Hrun Hread Hne Hthr.
  destruct (extract_verdicts_loop py_float py_str job built Hrun) as [items Hloop].
  destruct (extract_loop_mirrors py_float py_str _ _ _ Hloop) as [_ Hnames].
  assert (Hsame : Forall (fun r => JStr (analyzer_name r)
                                   = Py.get job "analyzerName" (JStr "unknown")) rs).
  { clear Hrun Hloop Hne.
    induction Hread as [|b r bs rs' [_ Hr] _ IH]; constructor.
    - apply Forall_cons_1 in Hnames as [Hb _]. rewrite Hr. exact Hb.
    - apply IH. apply Forall_cons_1 in Hnames as [_ Hbs]. exact Hbs. }
  destruct rs as [|r0 rs]; [congruence|].
  apply compute_likelihood_unboosted; [discriminate|].
  assert (Hd : (distinct_malicious (r0 :: rs) <= 1)%nat).
  { apply (distinct_malicious_one_name (r0 :: rs) (analyzer_name r0)).
    intros r Hr _. rewrite Forall_forall in Hsame.
    pose proof (Hsame r Hr) as H1.
    pose proof (Hsame r0 ltac:(apply list_elem_of_here)) as H0.
    rewrite <- H0 in H1. injection H1 as ->. reflexivity. }
  lia.
Qed.

(** A job with two malicious taxonomies, one of them with a numeric
    value: likelihood 0.5, the mean, and no boost has been applied. *)
Lemma one_job_never_boosts_two_malicious :
  exists built lh,
    extract_verdicts decimal_float plain_str
      {[ "analyzerName"%string := JStr "VirusTotal_GetReport_3_1";
         "report"%string := JObj {[ "summary"%string := JObj {[ "taxonomies"%string :=
           JArr [ JObj {[ "level"%string := JStr "malicious" ]};
                  JObj {[ "level"%string := JStr "malicious"; "value"%string := JNum 42 ]};
                  JObj {[ "level"%string := JStr "safe" ]};
                  JObj {[ "level"%string := JStr "safe" ]} ] ]} ]} ]} = Ok built /\
    compute_likelihood scenario_config
      [ verdict "VirusTotal_GetReport_3_1" "malicious";
        verdict "VirusTotal_GetReport_3_1" "malicious";
        verdict "VirusTotal_GetReport_3_1" "safe";
        verdict "VirusTotal_GetReport_3_1" "safe" ] = Ok lh /\
    lh == 1 # 2.
Proof.
  assert (Hrun : exists built,
            extract_verdicts decimal_float plain_str
      {[ "analyzerName"%string := JStr "VirusTotal_GetReport_3_1";
         "report"%string := JObj {[ "summary"%string := JObj {[ "taxonomies"%string :=
           JArr [ JObj {[ "level"%string := JStr "malicious" ]};
                  JObj {[ "level"%string := JStr "malicious"; "value"%string := JNum 42 ]};
                  JObj {[ "level"%string := JStr "safe" ]};
                  JObj {[ "level"%string := JStr "safe" ]} ] ]} ]} ]} = Ok built /\
            Forall2 reads_as built
              [ verdict "VirusTotal_GetReport_3_1" "malicious";
                verdict "VirusTotal_GetReport_3_1" "malicious";
                verdict "VirusTotal_GetReport_3_1" "safe";
                verdict "VirusTotal_GetReport_3_1" "safe" ]).
  { eexists. split; [vm_compute; reflexivity|].
    repeat constructor. }
  destruct Hrun as (built & Hrun & Hread). exists built.
  destruct (one_job_never_boosts decimal_float plain_str scenario_config _ _ _
              Hrun Hread) as (lh & Hlh & Hmean);
    [discriminate | vm_compute; discriminate |].
  exists lh. split; [exact Hrun|]. split; [exact Hlh|].
  rewrite Hmean. reflexivity.
Defined.

(** * Collecting the verdicts of an observable *)

Section CollectVerdicts.

Variable py_float : string -> option Q.
Variable py_str : json -> string.

Lemma ensure_report_inline (request : json -> result json) (job : gmap string json) :
  has_report job -> ensure_report request job = Ok job.
Proof.
  intros (report & Hreport & Htruthy). unfold ensure_report.
  rewrite Hreport, Htruthy. reflexivity.
Qed.

End CollectVerdicts.

(** Every verdict [get_analyzer_results] returns has one of the four
    canonical levels, whatever Cortex answered and whatever the types of
    the fields of the jobs. *)
Theorem get_analyzer_results_canonical
  (py_float : string -> option Q) (py_str : json -> string)
  (request_job_report : json -> result json)
  (get_observable_jobs : string -> string -> result (list (gmap string json)))
  (observable_value data_type : string) (rs : list Dynamic.AnalyzerResult) :
  get_analyzer_results py_float py_str request_job_report get_observable_jobs
    observable_value data_type = Ok rs ->
  Forall (fun r => Dynamic.level r ∈ canonical_levels) rs.
Proof.
  unfold get_analyzer_results.
  destruct (get_observable_jobs observable_value data_type) as [jobs|]; simpl;
    [|discriminate].
  revert rs. induction jobs as [|job rest IH]; intros rs; simpl.
  - intros [= <-]. constructor.
  - destruct (ensure_report request_job_report job) as [job'|]; simpl; [|discriminate].
    destruct (extract_verdicts py_float py_str job') as [vs|] eqn:Ev; simpl;
      [|discriminate].
    destruct (collect_verdicts py_float py_str request_job_report rest) as [rs'|];
      simpl; [|discriminate].
    intros [= <-]. apply Forall_app. split.
    + eapply extract_verdicts_canonical, Ev.
    + apply IH. reflexivity.
Qed.

(** A job found without its report, the sample job and the job with
    numbers: six verdicts, all canonical. *)
Lemma get_analyzer_results_canonical_three_jobs :
  exists rs,
    get_analyzer_results decimal_float plain_str serve_report
      (fun _ _ => Ok [bare_job; sample_job; numeric_job]) "198.51.100.7" "ip" = Ok rs /\
    Dynamic.level <$> rs
    = ["suspicious"; "malicious"; "info"; "info"; "suspicious"; "info"]%string /\
    Forall (fun r => Dynamic.level r ∈ canonical_levels) rs.
Proof.
  eexists. split; [vm_compute; reflexivity|]. split; [reflexivity|].
  apply (get_analyzer_results_canonical decimal_float plain_str serve_report
           (fun _ _ => Ok [bare_job; sample_job; numeric_job]) "198.51.100.7" "ip").
  vm_compute. reflexivity.
Defined.

(** Jobs that carry a non-empty report are not fetched again: when every
    job found has one, the verdicts are those of [extract_verdicts] on each
    job, concatenated in the order of the jobs, and no answer to a report
    request enters the result. *)
Theorem collect_verdicts_inline_reports
  (py_float : string -> option Q) (py_str : json -> string)
  (jobs : list (gmap string json)) :
  Forall has_report jobs ->
  forall request_job_report : json -> result json,
    collect_verdicts py_float py_str request_job_report jobs
    = (verdicts ← mapM (extract_verdicts py_float py_str) jobs; Ok (concat verdicts)).
Proof.
  intros Hall request. induction Hall as [|job rest Hjob _ IH]; [reflexivity|].
  simpl. rewrite (ensure_report_inline request job Hjob). simpl.
  destruct (extract_verdicts py_float py_str job) as [vs|]; simpl; [|reflexivity].
  rewrite IH.
  destruct (mapM (extract_verdicts py_float py_str) rest) as [vss|]; reflexivity.
Qed.

(** The sample job twice, with a server that fails every request. *)
Lemma collect_verdicts_inline_reports_sample :
  exists rs,
    collect_verdicts decimal_float plain_str (fun _ => Raise TypeError)
      [sample_job; sample_job] = Ok rs /\
    length rs = 6%nat.
Proof.
  rewrite (collect_verdicts_inline_reports decimal_float plain_str
             [sample_job; sample_job]).
  - eexists. split; [vm_compute; reflexivity | reflexivity].
  - repeat constructor; eexists; split; vm_compute; reflexivity.
Defined.

(** Fetching a missing report.  For a job without a report (or with a
    null or empty one): without an "id" the call raises [KeyError]; Cortex
    may answer with the report itself or with an object that holds it under
    "report", and both leave the job with that report; an empty answer
    leaves the job with an empty report, which yields no verdicts. *)
Theorem ensure_report_fetches
  (py_float : string -> option Q) (py_str : json -> string)
  (request_job_report : json -> result json) (job : gmap string json) :
  job !! "report"%string = None \/
  (exists v, job !! "report"%string = Some v /\ PyJson.truthy v = false) ->
  (job !! "id"%string = None ->
   forall rest,
     collect_verdicts py_float py_str request_job_report (job :: rest)
     = Raise (KeyError "id")) /\
  (forall job_id report,
     job !! "id"%string = Some job_id ->
     report !! "report"%string = None -> report <> ∅ ->
     request_job_report job_id = Ok (JObj report) \/
     request_job_report job_id = Ok (JObj {[ "report"%string := JObj report ]}) ->
     ensure_report request_job_report job
     = Ok (<["report"%string := JObj report]> job)) /\
  (forall job_id,
     job !! "id"%string = Some job_id ->
     request_job_report job_id = Ok JNull ->
     exists job',
       ensure_report request_job_report job = Ok job' /\
       extract_verdicts py_float py_str job' = Ok []).
Proof.
  intros Hmissing.
  assert (Hcond : match job !! "report"%string with
                  | None => true
                  | Some report => negb (PyJson.truthy report)
                  end = true).
  { destruct Hmissing as [-> | (v & -> & ->)]; reflexivity. }
  split; [|split].
  - intros Hid rest. simpl. unfold ensure_report, Py.getitem.
    rewrite Hcond, Hid. reflexivity.
  - intros job_id report Hid Hnone Hne Hanswer.
    unfold ensure_report, Py.getitem, get_job_report. rewrite Hcond, Hid. simpl.
    destruct Hanswer as [-> | ->]; simpl.
    + unfold PyJson.or. simpl. case_bool_decide as E.
      { apply map_size_empty_iff in E. contradiction. }
      simpl. unfold Py.get. rewrite Hnone. reflexivity.
    + unfold PyJson.or. simpl. rewrite map_size_singleton. simpl.
      unfold Py.get. rewrite lookup_singleton_eq. reflexivity.
  - intros job_id Hid Hanswer.
    unfold ensure_report, Py.getitem, get_job_report. rewrite Hcond, Hid. simpl.
    rewrite Hanswer. simpl. eexists. split; [reflexivity|].
    apply extract_verdicts_empty_summary.
    unfold Py.get. rewrite lookup_insert_eq. reflexivity.
Qed.

(** The job without a report, served under "report". *)
Lemma ensure_report_fetches_bare_job :
  ensure_report serve_report bare_job
  = Ok (<["report"%string := served_report]> bare_job).
Proof.
  destruct (ensure_report_fetches decimal_float plain_str serve_report bare_job)
    as (_ & Hfetch & _).
  - left. reflexivity.
  - apply (Hfetch (JStr "AWx1")); try reflexivity.
    + intros E. apply (f_equal size) in E. vm_compute in E. discriminate.
    + right. reflexivity.
Defined.

(** * The report *)

(** ** The verdict summary *)

Lemma count_of_cons (lvl : string) (r : AnalyzerResult) (rs : list AnalyzerResult) :
  count_of lvl (r :: rs)
  = ((if decide (level r = lvl) then 1 else 0) + count_of lvl rs)%nat.
Proof.
  unfold count_of. rewrite filter_cons. destruct (decide (level r = lvl)); reflexivity.
Qed.

Lemma count_levels_acc (results : list AnalyzerResult) (m : gmap string nat)
  (lvl : string) :
  fold_left
    (fun counts r => <[level r := (Py.get counts (level r) 0 + 1)%nat]> counts)
    results m !! lvl
  = match count_of lvl results with
    | O => m !! lvl
    | S c => Some (default 0%nat (m !! lvl) + S c)%nat
    end.
Proof.
  revert m. induction results as [|r rs IH]; intros m; [reflexivity|].
  simpl fold_left. rewrite IH, count_of_cons. unfold Py.get.
  destruct (decide (level r = lvl)) as [->|Hne].
  - rewrite lookup_insert_eq. simpl.
    destruct (count_of lvl rs); f_equal; lia.
  - rewrite lookup_insert_ne by exact Hne. reflexivity.
Qed.

Lemma count_levels_lookup (results : list AnalyzerResult) (lvl : string) :
  count_levels results !! lvl
  = match count_of lvl results with O => None | S c => Some (S c) end.
Proof.
  unfold count_levels. rewrite count_levels_acc, lookup_empty. reflexivity.
Qed.

Lemma total_insert_increment (m : gmap string nat) (k : string) :
  sum_list_with snd (map_to_list (<[k := (Py.get m k 0 + 1)%nat]> m))
  = S (sum_list_with snd (map_to_list m)).
Proof.
  unfold Py.get. destruct (m !! k) as [c|] eqn:E; simpl.
  - rewrite <- (insert_delete_eq m k (c + 1)%nat).
    rewrite map_to_list_insert by apply lookup_delete_eq.
    rewrite <- (map_to_list_delete m k c E). simpl. lia.
  - rewrite map_to_list_insert by exact E. reflexivity.
Qed.

Lemma total_count_levels (results : list AnalyzerResult) (m : gmap string nat) :
  sum_list_with snd
    (map_to_list
       (fold_left
          (fun counts r => <[level r := (Py.get counts (level r) 0 + 1)%nat]> counts)
          results m))
  = (sum_list_with snd (map_to_list m) + length results)%nat.
Proof.
  revert m. induction results as [|r rs IH]; intros m; simpl; [lia|].
  rewrite IH, total_insert_increment. lia.
Qed.

(** The summary counts every verdict once: the table of counts lists a
    level exactly when some result has it, with the number of results of
    that level, and the counts of the summary add up to the number of
    results. *)
Theorem verdict_summary_counts (results : list AnalyzerResult) :
  (forall lvl n,
     count_levels results !! lvl = Some n <->
     (0 < n)%nat /\ n = count_of lvl results) /\
  sum_list_with snd (sorted_items (count_levels results)) = length results.
Proof.
  split.
  - intros lvl n. rewrite count_levels_lookup.
    destruct (count_of lvl results) as [|c]; split.
    + discriminate.
    + intros [H ->]. lia.
    + intros [= <-]. split; [lia | reflexivity].
    + intros [_ ->]. reflexivity.
  - unfold sorted_items. rewrite merge_sort_Permutation.
    unfold count_levels. rewrite total_count_levels, map_to_list_empty. reflexivity.
Qed.

Lemma count_levels_permutation (rs rs' : list AnalyzerResult) :
  rs ≡ₚ rs' -> count_levels rs = count_levels rs'.
Proof.
  intros Hp. apply map_eq. intros lvl. rewrite !count_levels_lookup.
  unfold count_of. rewrite Hp. reflexivity.
Qed.

(** The summary does not depend on the order of the verdicts: two
    observables whose analyzer results are permutations of each other have
    the same summary. *)
Theorem verdict_summary_order_independent (obs obs' : ObservableRisk) :
  analyzer_results obs ≡ₚ analyzer_results obs' ->
  _verdict_summary obs = _verdict_summary obs'.
Proof.
  intros Hp. unfold _verdict_summary.
  rewrite (count_levels_permutation _ _ Hp).
  destruct (analyzer_results obs) as [|r rs], (analyzer_results obs') as [|r' rs'];
    try reflexivity.
  - apply Permutation_nil_l in Hp. discriminate.
  - symmetry in Hp. apply Permutation_nil_l in Hp. discriminate.
Qed.

(** Safe before malicious, or malicious before safe. *)
Lemma verdict_summary_order_independent_swap :
  _verdict_summary
    (unscored "198.51.100.7" [verdict "VirusTotal" "safe"; verdict "AbuseIPDB" "malicious"])
  = _verdict_summary
    (unscored "198.51.100.7" [verdict "AbuseIPDB" "malicious"; verdict "VirusTotal" "safe"]).
Proof.
  apply verdict_summary_order_independent. simpl. apply Permutation_swap.
Defined.

#[local] Instance item_le_transitive : Transitive item_le.
Proof.
  intros x y z [Hxy Hxy'] [Hyz Hyz']. split.
  - etrans; eassumption.
  - intros E. rewrite E in Hxy.
    assert (Eyz : y.1 = z.1) by (apply (anti_symm String.le); assumption).
    assert (Exy : x.1 = y.1) by congruence.
    specialize (Hxy' Exy). specialize (Hyz' Eyz). lia.
Qed.

#[local] Instance item_le_total : Total item_le.
Proof.
  intros x y. unfold item_le.
  destruct (decide (x.1 = y.1)) as [E|Hne].
  - destruct (Nat.le_ge_cases x.2 y.2).
    + left. split; [rewrite E; reflexivity | auto].
    + right. split; [rewrite E; reflexivity | auto].
  - destruct (total String.le x.1 y.1).
    + left. split; [assumption | contradiction].
    + right. split; [assumption | congruence].
Qed.

Lemma strictly_ascending (l : list (string * nat)) :
  NoDup (l.*1) -> StronglySorted item_le l ->
  StronglySorted (fun x y => String.le x.1 y.1 /\ x.1 <> y.1) l.
Proof.
  intros Hnd Hs. induction Hs as [|x l Hs IH Hx]; constructor.
  - apply IH. rewrite fmap_cons in Hnd. apply NoDup_cons in Hnd as [_ Hnd].
    exact Hnd.
  - rewrite fmap_cons in Hnd. apply NoDup_cons in Hnd as [Hnot _].
    rewrite Forall_forall in Hx |- *. intros y Hy. split; [apply (Hx y Hy)|].
    intros E. apply Hnot. rewrite E. apply list_elem_of_fmap. exists y. auto.
Qed.

(** The parts of the summary come in ascending order of level, every
    level once: [sorted_items] returns the entries of the table, each
    strictly above the ones before it. *)
Theorem sorted_items_ascending (counts : gmap string nat) :
  sorted_items counts ≡ₚ map_to_list counts /\
  StronglySorted (fun x y => String.le x.1 y.1 /\ x.1 <> y.1) (sorted_items counts).
Proof.
  assert (Hp : sorted_items counts ≡ₚ map_to_list counts)
    by apply merge_sort_Permutation.
  split; [exact Hp|]. apply strictly_ascending.
  - rewrite Hp. apply NoDup_fst_map_to_list.
  - apply (StronglySorted_merge_sort item_le).
Qed.

(** ** Labels and the report *)

Lemma classify_risk_range (cfg : Config) (x : Q) (label : string) :
  classify_risk cfg x = Ok label ->
  label ∈ ["Critical"; "High"; "Medium"; "Low"; "Info"]%string.
Proof.
  unfold classify_risk, Py.getitem.
  destruct (RISK_THRESHOLDS cfg !! "critical"%string); simpl; [|discriminate].
  destruct (Py.geb x _); [intros [= <-]; set_solver|].
  destruct (RISK_THRESHOLDS cfg !! "high"%string); simpl; [|discriminate].
  destruct (Py.geb x _); [intros [= <-]; set_solver|].
  destruct (RISK_THRESHOLDS cfg !! "medium"%string); simpl; [|discriminate].
  destruct (Py.geb x _); [intros [= <-]; set_solver|].
  destruct (RISK_THRESHOLDS cfg !! "low"%string); simpl; [|discriminate].
  destruct (Py.geb x _); intros [= <-]; set_solver.
Qed.

(** The reporter knows every label the classifier can give: for the label
    of any ALE the indicator is not empty and the recommended actions are
    between 2 and 5 and not the fallback; for any other label the indicator
    is empty and the single action is "Review case manually". *)
Theorem classified_labels_are_reported :
  (forall cfg x label,
     classify_risk cfg x = Ok label ->
     _risk_emoji label <> ""%string /\
     _recommendations label <> ["Review case manually"%string] /\
     (2 <= length (_recommendations label) <= 5)%nat) /\
  (forall label,
     label ∉ ["Critical"; "High"; "Medium"; "Low"; "Info"]%string ->
     _risk_emoji label = ""%string /\
     _recommendations label = ["Review case manually"%string]).
Proof.
  split.
  - intros cfg x label Hlabel. apply classify_risk_range in Hlabel.
    repeat (apply elem_of_cons in Hlabel as [-> | Hlabel];
            [vm_compute; repeat split; (discriminate || lia)|]).
    inversion Hlabel.
  - intros label Hnot.
    assert (H1 : "Critical"%string <> label) by (intros <-; apply Hnot; set_solver).
    assert (H2 : "High"%string <> label) by (intros <-; apply Hnot; set_solver).
    assert (H3 : "Medium"%string <> label) by (intros <-; apply Hnot; set_solver).
    assert (H4 : "Low"%string <> label) by (intros <-; apply Hnot; set_solver).
    assert (H5 : "Info"%string <> label) by (intros <-; apply Hnot; set_solver).
    unfold _risk_emoji, _recommendations, Py.get.
    rewrite !lookup_insert_ne, !lookup_singleton_ne by assumption.
    split; reflexivity.
Qed.

(** Scenario B: the label "High" has an indicator and four actions. *)
Lemma classified_labels_are_reported_scenario :
  _risk_emoji "High" <> ""%string /\
  length (_recommendations "High") = 4%nat.
Proof.
  destruct (proj1 classified_labels_are_reported scenario_config 100000 "High"%string)
    as (Hemoji & _ & _); [reflexivity|].
  split; [exact Hemoji | reflexivity].
Defined.

Lemma score_case_attaches (cfg : Config) (a a' : CaseRiskAssessment) (risk : RiskScore) :
  score_case cfg a = Ok (a', risk) -> risk_score a' = Some risk.
Proof.
  unfold score_case.
  destruct (score_observables cfg (observables a)) as [[obs' lhs]|]; simpl;
    [|discriminate].
  destruct (compute_impact cfg _ _) as [impact|]; simpl; [|discriminate].
  destruct (classify_risk cfg _) as [lvl|]; simpl; [|discriminate].
  intros [= <- <-]. reflexivity.
Qed.

Lemma concat_two (sep x y : string) (rest : list string) :
  String.concat sep (x :: y :: rest)
  = x +:+ sep +:+ String.concat sep (y :: rest).
Proof. reflexivity. Qed.

(** A scored case always renders.  [generate_report] returns the error
    text for an assessment without a score; for the assessment that
    [score_case] has returned it never does: the report is the lines of the
    score that was attached, it opens with the title line, and it differs
    from the error text whatever the number formats print. *)
Theorem generate_report_after_scoring (fmt_money2 fmt_money0 fmt_percent : Q -> string) :
  (forall a,
     risk_score a = None ->
     generate_report fmt_money2 fmt_money0 fmt_percent a
     = "**Error:** Case has not been scored yet."%string) /\
  (forall cfg a a' risk,
     score_case cfg a = Ok (a', risk) ->
     generate_report fmt_money2 fmt_money0 fmt_percent a'
     = String.concat newline (report_lines fmt_money2 fmt_money0 fmt_percent a' risk) /\
     (exists rest,
        generate_report fmt_money2 fmt_money0 fmt_percent a'
        = "# Risk Assessment Report" +:+ newline +:+ rest) /\
     generate_report fmt_money2 fmt_money0 fmt_percent a'
     <> "**Error:** Case has not been scored yet."%string).
Proof.
  split.
  - intros a Hnone. unfold generate_report. rewrite Hnone. reflexivity.
  - intros cfg a a' risk Hrun. apply score_case_attaches in Hrun.
    unfold generate_report. rewrite Hrun.
    assert (Hopen : exists rest,
              String.concat newline (report_lines fmt_money2 fmt_money0 fmt_percent a' risk)
              = "# Risk Assessment Report" +:+ newline +:+ rest).
    { eexists. unfold report_lines. cbv zeta.
      rewrite <- !app_comm_cons. apply concat_two. }
    split; [reflexivity|]. split; [exact Hopen|].
    destruct Hopen as [rest ->]. discriminate.
Qed.

(** The empty database case of scenario B, scored and rendered. *)
Lemma generate_report_after_scoring_scenario :
  exists a' risk,
    score_case scenario_config (case_of "database" "high" []) = Ok (a', risk) /\
    generate_report (fun _ => "0.00") (fun _ => "200,000") (fun _ => "0.00%") a'
    <> "**Error:** Case has not been scored yet."%string.
Proof.
  destruct (score_case_returns scenario_config (case_of "database" "high" [])
              scenario_config_complete)
    as (obs' & impact & lvl & _ & _ & _ & Hrun).
  eexists _, _. split; [exact Hrun|].
  apply (proj2 (generate_report_after_scoring _ _ _) _ _ _ _ Hrun).
Defined.

(** * Worst-case aggregation *)

Lemma round_half_even_floor (y : Q) :
  (Qfloor y <= Py.round_half_even y <= Qfloor y + 1)%Z.
Proof.
  unfold Py.round_half_even. cbv zeta.
  destruct (Qcompare _ _); [destruct (Z.even _)| |]; lia.
Qed.

Lemma round_half_even_monotone (x y : Q) :
  x <= y -> (Py.round_half_even x <= Py.round_half_even y)%Z.
Proof.
  intros Hxy. pose proof (Qfloor_resp_le _ _ Hxy) as Hf.
  pose proof (round_half_even_floor x) as Hx.
  pose proof (round_half_even_floor y) as Hy.
  destruct (Z.eq_dec (Qfloor x) (Qfloor y)) as [E|E]; [|clear Hxy; lia].
  assert (Hfrac : x - inject_Z (Qfloor x) <= y - inject_Z (Qfloor y)).
  { rewrite E. apply Qplus_le_l. exact Hxy. }
  unfold Py.round_half_even in *. cbv zeta in *. rewrite E in *.
  destruct (Qcompare (x - inject_Z (Qfloor y)) (1 # 2)) eqn:Cx.
  - apply Qeq_alt in Cx.
    destruct (Qcompare (y - inject_Z (Qfloor y)) (1 # 2)) eqn:Cy.
    + clear Hxy Hfrac Cx. lia.
    + apply Qlt_alt in Cy. exfalso. rewrite Cx in Hfrac.
      apply (Qlt_not_le _ _ Cy Hfrac).
    + clear Hxy Hfrac Cx. destruct (Z.even _); lia.
  - clear Hxy Hfrac. lia.
  - apply Qgt_alt in Cx.
    destruct (Qcompare (y - inject_Z (Qfloor y)) (1 # 2)) eqn:Cy.
    + apply Qeq_alt in Cy. exfalso. rewrite Cy in Hfrac.
      apply (Qlt_not_le _ _ Cx Hfrac).
    + apply Qlt_alt in Cy. exfalso.
      apply (Qlt_not_le _ _ Cx). eapply Qle_trans; [exact Hfrac|].
      apply Qlt_le_weak, Cy.
    + clear Hxy Hfrac. lia.
Qed.

Lemma round_monotone (x y : Q) (n : nat) : x <= y -> Py.round x n <= Py.round y n.
Proof.
  intros H. unfold Py.round. pose proof (power_of_ten_positive n) as Hp.
  unfold Qdiv. apply Qmult_le_compat_r.
  - rewrite <- Zle_Qle. apply round_half_even_monotone.
    apply Qmult_le_compat_r; [exact H | apply Qlt_le_weak, Hp].
  - apply Qlt_le_weak, Qinv_lt_0_compat, Hp.
Qed.

Lemma classify_risk_monotone (cfg : Config) (x y : Q) (lx ly : string) :
  x <= y ->
  classify_risk cfg x = Ok lx -> classify_risk cfg y = Ok ly ->
  (severity_rank lx <= severity_rank ly)%nat.
Proof.
  intros Hxy. unfold classify_risk, Py.getitem.
  assert (mono : forall t, Py.geb x t = true -> Py.geb y t = true).
  { intros t Ht. apply geb_le. apply geb_le in Ht. eapply Qle_trans; eassumption. }
  destruct (RISK_THRESHOLDS cfg !! "critical"%string) as [c|]; simpl; [|discriminate].
  destruct (Py.geb x c) eqn:E1.
  { rewrite (mono _ E1). intros [= <-] [= <-]. vm_compute. lia. }
  destruct (RISK_THRESHOLDS cfg !! "high"%string) as [h|]; simpl;
    [|destruct (Py.geb y c); discriminate].
  destruct (Py.geb x h) eqn:E2.
  { rewrite (mono _ E2). intros [= <-]. destruct (Py.geb y c); intros [= <-];
      vm_compute; lia. }
  destruct (RISK_THRESHOLDS cfg !! "medium"%string) as [m|]; simpl;
    [|destruct (Py.geb y c), (Py.geb y h); discriminate].
  destruct (Py.geb x m) eqn:E3.
  { rewrite (mono _ E3). intros [= <-].
    destruct (Py.geb y c), (Py.geb y h); intros [= <-]; vm_compute; lia. }
  destruct (RISK_THRESHOLDS cfg !! "low"%string) as [l|]; simpl;
    [|destruct (Py.geb y c), (Py.geb y h), (Py.geb y m); discriminate].
  destruct (Py.geb x l) eqn:E4.
  { rewrite (mono _ E4). intros [= <-].
    destruct (Py.geb y c), (Py.geb y h), (Py.geb y m); intros [= <-];
      vm_compute; lia. }
  intros [= <-].
  destruct (Py.geb y c), (Py.geb y h), (Py.geb y m), (Py.geb y l); intros [= <-];
    vm_compute; lia.
Qed.

Lemma scored_likelihoods (cfg : Config) (obs obs' : list ObservableRisk) :
  Forall2 (scored_by cfg) obs obs' ->
  forall x, x ∈ likelihood <$> obs' <->
            exists o, o ∈ obs /\ compute_likelihood cfg (analyzer_results o) = Ok x.
Proof.
  induction 1 as [|o o' obs obs' (_ & _ & Ho) _ IH]; intros x.
  - split; [intros H; inversion H | intros (o & H & _); inversion H].
  - rewrite fmap_cons, elem_of_cons, IH. split.
    + intros [-> | (o2 & Hin & Hrun)].
      * exists o. split; [apply list_elem_of_here | exact Ho].
      * exists o2. split; [apply list_elem_of_further, Hin | exact Hrun].
    + intros (o2 & Hin & Hrun). apply elem_of_cons in Hin as [-> | Hin].
      * left. rewrite Ho in Hrun. injection Hrun as ->. reflexivity.
      * right. exists o2. split; assumption.
Qed.

Lemma case_likelihood_in_or_zero (likelihoods : list Q) :
  case_likelihood_of likelihoods ∈ likelihoods \/
  (likelihoods = [] /\ case_likelihood_of likelihoods = 0).
Proof.
  destruct likelihoods as [|x xs]; [right; split; reflexivity|].
  left. apply (case_likelihood_maximum (x :: xs)). discriminate.
Qed.

Lemma case_likelihood_upper (likelihoods : list Q) (x : Q) :
  x ∈ likelihoods -> x <= case_likelihood_of likelihoods.
Proof.
  intros Hin. destruct likelihoods as [|y ys]; [inversion Hin|].
  destruct (case_likelihood_maximum (y :: ys)) as [_ Hmax]; [discriminate|].
  rewrite Forall_forall in Hmax. apply Hmax, Hin.
Qed.

(** More observables never lower the score.  For two assessments of the
    same asset type and sensitivity, the second owning every observable of
    the first (and possibly more), with verdict weights and a boost factor
    that are not negative and an impact that is not negative: the reported
    likelihood, the reported ALE and the severity of the risk level of the
    second are at least those of the first.  No number of benign
    observables dilutes a malicious one. *)
Theorem score_case_more_observables
  (cfg : Config) (a b a' b' : CaseRiskAssessment) (ra rb : RiskScore) :
  (forall lvl w, VERDICT_WEIGHTS cfg !! lvl = Some w -> 0 <= w) ->
  0 <= MALICIOUS_CONSENSUS_BOOST cfg ->
  asset_type b = asset_type a -> sensitivity b = sensitivity a ->
  (forall o, o ∈ observables a -> o ∈ observables b) ->
  score_case cfg a = Ok (a', ra) ->
  score_case cfg b = Ok (b', rb) ->
  0 <= impact_dollars ra ->
  rs_likelihood ra <= rs_likelihood rb /\
  ale ra <= ale rb /\
  (severity_rank (risk_level ra) <= severity_rank (risk_level rb))%nat.
Proof.
  intros Hw Hboost Hasset Htier Hsub Ha Hb Himpact.
  destruct (score_case_inv cfg a a' ra Ha)
    as (ia & Halla & Hia & Hira & Hlha & Halea & Hlvla).
  destruct (score_case_inv cfg b b' rb Hb)
    as (ib & Hallb & Hib & Hirb & Hlhb & Haleb & Hlvlb).
  rewrite Hasset, Htier, Hia in Hib. injection Hib as <-.
  rewrite Hira in Himpact.
  assert (Hcl : case_likelihood_of (likelihood <$> observables a')
                <= case_likelihood_of (likelihood <$> observables b')).
  { destruct (case_likelihood_in_or_zero (likelihood <$> observables a'))
      as [Hin | [Hnil Hzero]].
    - apply (scored_likelihoods cfg _ _ Halla) in Hin as (o & Ho & Hrun).
      apply case_likelihood_upper.
      apply (scored_likelihoods cfg _ _ Hallb). exists o.
      split; [apply Hsub, Ho | exact Hrun].
    - rewrite Hzero.
      destruct (case_likelihood_in_or_zero (likelihood <$> observables b'))
        as [Hin | [_ ->]]; [|apply Qle_refl].
      apply (scored_likelihoods cfg _ _ Hallb) in Hin as (o & _ & Hrun).
      exact (proj1 (likelihood_in_unit_interval cfg _ _ Hw Hboost Hrun)). }
  set (cla := case_likelihood_of (likelihood <$> observables a')) in *.
  set (clb := case_likelihood_of (likelihood <$> observables b')) in *.
  assert (Hale : cla * ia <= clb * ia) by (apply Qmult_le_compat_r; assumption).
  split; [|split].
  - rewrite Hlha, Hlhb. apply round_monotone, Hcl.
  - rewrite Halea, Haleb. apply round_monotone, Hale.
  - eapply classify_risk_monotone; eassumption.
Qed.

(** The malicious observable of the three, alone and in company. *)
Lemma score_case_more_observables_three :
  exists a' b' ra rb,
    score_case scenario_config
      (case_of "database" "high" [unscored "203.0.113.9" (one_analyzer 9 10)])
      = Ok (a', ra) /\
    score_case scenario_config (case_of "database" "high" three_observables)
      = Ok (b', rb) /\
    rs_likelihood ra <= rs_likelihood rb /\ ale ra <= ale rb.
Proof.
  assert (Ha : exists a' ra,
            score_case scenario_config
              (case_of "database" "high" [unscored "203.0.113.9" (one_analyzer 9 10)])
            = Ok (a', ra) /\ 0 <= impact_dollars ra).
  { eexists _, _. split; [vm_compute; reflexivity | vm_compute; discriminate]. }
  assert (Hb : exists b' rb,
            score_case scenario_config (case_of "database" "high" three_observables)
            = Ok (b', rb)).
  { eexists _, _. vm_compute. reflexivity. }
  destruct Ha as (a' & ra & Ha & Hi). destruct Hb as (b' & rb & Hb).
  exists a', b', ra, rb. split; [exact Ha|]. split; [exact Hb|].
  destruct (score_case_more_observables scenario_config
              (case_of "database" "high" [unscored "203.0.113.9" (one_analyzer 9 10)])
              (case_of "database" "high" three_observables) a' b' ra rb
              scenario_weights_nonneg) as (H1 & H2 & _);
    [discriminate | reflexivity | reflexivity | | exact Ha | exact Hb | exact Hi |].
  { intros o Ho. apply list_elem_of_singleton in Ho as ->.
    apply list_elem_of_further, list_elem_of_here. }
  split; assumption.
Defined.
